(** * bank-data: the condenser package (common.py, merge.py, download.py)

    A shallow embedding of the Python sources, followed by the properties
    of the specification that were checked against it.

    Python integers are [Z]; [str] is [string]; a [list] is a [list];
    a [set] of strings is a [gset string]; a [dict] is an insertion-ordered
    association list ([PyDict]) whose keys are compared with the key type's
    [__eq__]; a raised exception is the [Raise] result. *)

From Stdlib Require Import ZArith List String Ascii Bool Lia.
From stdpp Require Import base list strings gmap pretty.

Open Scope string_scope.
Open Scope list_scope.
Open Scope Z_scope.

(** ** Python runtime *)

Module Py.

(** The exceptions the modelled code can raise. *)
Inductive exn : Type :=
| KeyError (key : string)
| IndexError
| ValueError
| HTTPError (status : Z)
| ConnectionError
| OSError (filename : string).

Inductive Result (A : Type) : Type :=
| Ok (a : A)
| Raise (e : exn).
Arguments Ok {A} a.
Arguments Raise {A} e.

Definition is_ok {A} (r : Result A) : bool :=
  match r with Ok _ => true | Raise _ => false end.

Definition is_raise {A} (r : Result A) : bool := negb (is_ok r).

Definition rbind {A B} (r : Result A) (k : A -> Result B) : Result B :=
  match r with
  | Ok a => k a
  | Raise e => Raise e
  end.

(** A method body: it runs on a mutable state [S]; the state it leaves
    behind is kept also when it raises. *)
Definition M (S A : Type) : Type := S -> Result A * S.

Definition ret {S A} (a : A) : M S A := fun s => (Ok a, s).
Definition raise {S A} (e : exn) : M S A := fun s => (Raise e, s).
Definition bind {S A B} (m : M S A) (k : A -> M S B) : M S B :=
  fun s => match m s with
           | (Ok a, s') => k a s'
           | (Raise e, s') => (Raise e, s')
           end.
Definition get {S} : M S S := fun s => (Ok s, s).
Definition modify {S} (f : S -> S) : M S unit := fun s => (Ok tt, f s).
Definition lift {S A} (r : Result A) : M S A := fun s => (r, s).

(** [for x in xs: body x], where the body neither breaks nor returns. *)
Fixpoint for_each {S A} (xs : list A) (body : A -> M S unit) : M S unit :=
  match xs with
  | [] => ret tt
  | x :: rest => bind (body x) (fun _ => for_each rest body)
  end.

(** [l[i]] on a list: a negative index counts from the end. *)
Definition index {A} (l : list A) (i : Z) : Result A :=
  let n := Z.of_nat (length l) in
  let j := if i <? 0 then i + n else i in
  if (j <? 0) || (n <=? j) then Raise IndexError
  else match l !! Z.to_nat j with
       | Some x => Ok x
       | None => Raise IndexError
       end.

(** [range(lo, hi)] *)
Definition range (lo hi : Z) : list Z := seqZ lo (hi - lo).

(** [str(n)] for an [int] *)
Definition str_int (n : Z) : string := pretty n.

(** [s[n:]] for [0 <= n] *)
Fixpoint slice_from (n : nat) (s : string) : string :=
  match n, s with
  | O, _ => s
  | S _, EmptyString => EmptyString
  | S n', String _ rest => slice_from n' rest
  end.

(** [s[0]] *)
Definition str_head (s : string) : Result string :=
  match s with
  | EmptyString => Raise IndexError
  | String c _ => Ok (String c EmptyString)
  end.

Definition ascii_upper (c : ascii) : ascii :=
  let n := nat_of_ascii c in
  if (97 <=? n)%nat && (n <=? 122)%nat then ascii_of_nat (n - 32) else c.

Definition ascii_lower (c : ascii) : ascii :=
  let n := nat_of_ascii c in
  if (65 <=? n)%nat && (n <=? 90)%nat then ascii_of_nat (n + 32) else c.

(** [s.upper()] and [s.lower()], on ASCII text *)
Fixpoint upper (s : string) : string :=
  match s with
  | EmptyString => EmptyString
  | String c rest => String (ascii_upper c) (upper rest)
  end.

Fixpoint lower (s : string) : string :=
  match s with
  | EmptyString => EmptyString
  | String c rest => String (ascii_lower c) (lower rest)
  end.

(** [(a, b) = s] for a string [s]: unpacking iterates its characters. *)
Definition unpack2 (s : string) : Result (string * string) :=
  match s with
  | String a (String b EmptyString) =>
      Ok (String a EmptyString, String b EmptyString)
  | _ => Raise ValueError
  end.

(** A [dict]: the entries in insertion order. Keys are compared with
    [=]: value equality for [str], identity for an object whose class
    defines no [__eq__] (a reference). *)
Abbreviation PyDict K V := (list (K * V)) (only parsing).

Section Dict.
Context {K V : Type} `{EqDecision K}.

(** [d.get(k)]: [None] when the key is absent *)
Fixpoint dict_get (k : K) (d : PyDict K V) : option V :=
  match d with
  | [] => None
  | (k', v) :: rest => if decide (k' = k) then Some v else dict_get k rest
  end.

(** [d[k] = v]: an existing key keeps its place, a new one goes last *)
Fixpoint dict_set (k : K) (v : V) (d : PyDict K V) : PyDict K V :=
  match d with
  | [] => [(k, v)]
  | (k', v') :: rest =>
      if decide (k' = k) then (k', v) :: rest
      else (k', v') :: dict_set k v rest
  end.

(** [list(d)]: iterating a dict yields its keys *)
Definition dict_keys (d : PyDict K V) : list K := fst <$> d.

(** The entries stored under [k] *)
Definition dict_entries (k : K) (d : PyDict K V) : list V :=
  snd <$> filter (fun kv => kv.1 = k) d.
End Dict.

(** A reference to a heap object, [id(obj)] *)
Definition ref : Type := positive.

(** The bytes of a file or of a response body *)
Definition bytes : Type := list Byte.byte.

End Py.

Import Py.

Declare Scope py_scope.
Delimit Scope py_scope with py.
Notation "'do' x <- m ; k" := (bind m (fun x => k))
  (at level 10, x name, m at level 100, k at level 200) : py_scope.
Notation "'run' m ; k" := (bind m (fun _ => k))
  (at level 10, m at level 100, k at level 200) : py_scope.
Notation "'try' x <- r ; k" := (rbind r (fun x => k))
  (at level 10, x name, r at level 100, k at level 200) : py_scope.

(** ** common.py *)

Module Common.

(** class Month *)
Record Month : Type := { month_index : Z }.

Definition short_names : list string :=
  ["jan"; "feb"; "mar"; "apr"; "may"; "jun";
   "jul"; "aug"; "sep"; "oct"; "nov"; "dec"].

(** Month.short_name *)
Definition short_name (self : Month) : Result string :=
  index short_names (month_index self).

(** Month.numerical *)
Definition numerical (self : Month) : Result Z :=
  Ok (month_index self + 1).

(** [calendar.month_name] of the standard library, in the default locale:
    thirteen entries, the first one empty. *)
Definition calendar_month_name : list string :=
  [""; "January"; "February"; "March"; "April"; "May"; "June"; "July";
   "August"; "September"; "October"; "November"; "December"].

(** Month.__str__ *)
Definition month_str (self : Month) : Result string :=
  index calendar_month_name (1 + month_index self).

(** Month.all_months *)
Definition all_months : list Month :=
  (fun i => {| month_index := i |}) <$> range 0 12.

(** class MonthlyDataReport *)
Record MonthlyDataReport : Type := { year : Z; month : Month }.

(** MonthlyDataReport.locate_excel_file *)
Definition locate_excel_file (self : MonthlyDataReport) (data_dir : string)
  : Result string :=
  (try n <- numerical (month self) ;
   Ok (data_dir +:+ "/" +:+ str_int (year self) +:+ "-" +:+ str_int n +:+ ".xlsx"))%py.

Definition econtrds : string := "https://www.bb.org.bd/pub/monthly/econtrds/".

(** MonthlyDataReport.locate_possible_urls *)
Definition locate_possible_urls (self : MonthlyDataReport)
  : Result (list string) :=
  (let short_year := slice_from 2 (str_int (year self)) in
   let full_year := str_int (year self) in
   try short_month <- short_name (month self) ;
   try first <- str_head short_month ;
   let capital_short_name := upper first +:+ slice_from 1 short_month in
   try month_name <- month_str (month self) ;
   let lower_month := lower month_name in
   try short_month' <- short_name (month self) ;
   Ok [ econtrds +:+ "et" +:+ short_month' +:+ short_year +:+ ".xlsx";
        econtrds +:+ "econtrends_" +:+ month_name +:+ full_year +:+ ".xlsx";
        econtrds +:+ "econtrends_" +:+ lower_month +:+ full_year +:+ ".xlsx";
        econtrds +:+ "ET" +:+ capital_short_name +:+ short_year +:+ ".xlsx";
        econtrds +:+ "econtrends_" +:+ short_month +:+ full_year +:+ ".xlsx";
        econtrds +:+ short_month +:+ short_year +:+ "/statisticaltable.xlsx";
        econtrds +:+ short_month +:+ short_year +:+ "/statisticaltable.xls";
        econtrds +:+ lower_month +:+ short_year +:+ "/statisticaltable.xlsx" ])%py.

(** The exception list of MonthlyDataReport.has_no_data *)
Definition no_data_list : list (string * Z) := [("nov", 2015)].

Definition pair_eqb (a b : string * Z) : bool :=
  String.eqb (fst a) (fst b) && (snd a =? snd b).

(** MonthlyDataReport.has_no_data *)
Definition has_no_data (self : MonthlyDataReport) : Result bool :=
  (try name <- short_name (month self) ;
   Ok (existsb (pair_eqb (name, year self)) no_data_list))%py.

End Common.

Import Common.

(** ** merge.py *)

Module Merge.

(** The value of a spreadsheet cell, passed through as read *)
Inductive Cell : Type :=
| CellNumber (n : Z)
| CellText (s : string)
| CellEmpty.

(** class RowData: [data] maps a column label to a cell value *)
Record RowData : Type := { data : PyDict string Cell }.

(** class Timestamp: the fields of one Timestamp object. The class
    defines neither [__eq__] nor [__hash__]; a Timestamp used as a dict
    key is therefore its reference. *)
Record Timestamp : Type := { day : Z; month : Z; year : Z }.

(** class Sheet *)
Record Sheet : Type := {
  columns : gset string;
  rows : PyDict ref RowData
}.

(** Sheet.ensure_column *)
Definition ensure_column (column : string) : M Sheet unit :=
  modify (fun self =>
    {| columns := columns self ∪ {[column]}; rows := rows self |}).

(** Sheet.add_row: the loop iterates [row.data] itself, that is its
    keys, and unpacks each key into [(col, val)]. *)
Definition add_row (timestamp : ref) (row : RowData) : M Sheet unit :=
  (run for_each (dict_keys (data row)) (fun key =>
         do cv <- lift (unpack2 key);
         ensure_column (fst cv));
   modify (fun self =>
     {| columns := columns self;
        rows := dict_set timestamp row (rows self) |}))%py.

(** class MergeXL: [sheets] maps a name to a Sheet object or to [None] *)
Record MergeXL : Type := { sheets : PyDict string (option ref) }.

(** The objects and files a MergeXL method can reach *)
Record World : Type := {
  engine : MergeXL;
  sheet_objects : gmap ref Sheet;
  timestamp_objects : gmap ref Timestamp;
  files : gmap string bytes
}.

(** MergeXL.__init__ *)
Definition MergeXL_init : MergeXL := {| sheets := [] |}.

(** [Sheet(columns, rows)]: a new object on the heap *)
Definition new_Sheet (columns : gset string) (rows : PyDict ref RowData)
  : M World ref :=
  fun w =>
    let r := fresh (dom (sheet_objects w)) in
    (Ok r, {| engine := engine w;
              sheet_objects := <[r := {| columns := columns; rows := rows |}]>
                                 (sheet_objects w);
              timestamp_objects := timestamp_objects w;
              files := files w |}).

(** [self.sheets[name] = value] *)
Definition set_sheet (name : string) (value : option ref) : M World unit :=
  modify (fun w =>
    {| engine := {| sheets := dict_set name value (sheets (engine w)) |};
       sheet_objects := sheet_objects w;
       timestamp_objects := timestamp_objects w;
       files := files w |}).

(** MergeXL.get_or_create_sheet: [self.sheets[name]] is a subscript, it
    raises KeyError on a missing key. *)
Definition get_or_create_sheet (name : string) : M World ref :=
  (do w <- get;
   match dict_get name (sheets (engine w)) with
   | None => raise (KeyError name)
   | Some (Some existing) => ret existing
   | Some None =>
       do new <- new_Sheet ∅ [];
       run set_sheet name (Some new);
       ret new
   end)%py.

(** What openpyxl reads from a file: the worksheets in order, each with
    its title and its rows (column label to cell value). *)
Record Worksheet : Type := {
  title : string;
  ws_rows : list (PyDict string Cell)
}.

Definition Workbook : Type := list Worksheet.

Section Reader.
(** [openpyxl.load_workbook] on the bytes of a file *)
Variable load_workbook : bytes -> Result Workbook.

(** MergeXL.add_source: the workbook is loaded into a local and the
    method ends. *)
Definition add_source (source_xl : string) : M World unit :=
  (do w <- get;
   match files w !! source_xl with
   | None => raise (OSError source_xl)
   | Some content =>
       do workbook <- lift (load_workbook content);
       ret tt
   end)%py.

(** MergeXL.write_to: the body is [pass]. *)
Definition write_to (output : string) : M World unit :=
  ret tt.

(** condense_existing of __main__.py, on the paths of the listing *)
Definition condense_existing (sources : list string) : M World unit :=
  (run for_each sources add_source;
   write_to "merged.xlsx")%py.
End Reader.

End Merge.

(** ** download.py *)

Module Download.

(** What [requests.get] hands back: the status, the URL the response
    finally came from (after redirects) and the body. *)
Record Response : Type := {
  status_code : Z;
  url : string;
  content : bytes
}.

(** What a run does that can be observed from outside. [Attempt] marks
    the entry into download_if_possible; it has no counterpart in the
    source and is recorded only so that calls can be counted. *)
Inductive event : Type :=
| Attempt (report : MonthlyDataReport)
| Get (url : string)
| Info (log : string)
| Warn (log : string)
| Wrote (filename : string).

Record World : Type := {
  files : gmap string bytes;
  trace : list event
}.

Definition emit (e : event) : M World unit :=
  modify (fun w => {| files := files w; trace := trace w ++ [e] |}).

(** common.info and common.warn *)
Definition info (log : string) : M World unit := emit (Info log).
Definition warn (log : string) : M World unit := emit (Warn log).

(** [Response.raise_for_status]: HTTPError on a 4xx or 5xx status *)
Definition raise_for_status (request : Response) : Result unit :=
  if (400 <=? status_code request) && (status_code request <? 600)
  then Raise (HTTPError (status_code request))
  else Ok tt.

(** [x in xs] on a list of strings *)
Definition str_in (x : string) (xs : list string) : bool :=
  existsb (String.eqb x) xs.

Section Environment.
(** The network: the answer to a GET may depend on everything that
    happened before; a connection failure is a raised exception. *)
Variable server : World -> string -> Result Response.
(** Whether [open(filename, 'wb')] succeeds *)
Variable can_open : World -> string -> bool.
(** [datetime.datetime.now().year] *)
Variable now_year : Z.
(** [self.data_dir] *)
Variable data_dir : string.

(** [requests.get(url, stream=True)] *)
Definition requests_get (url : string) : M World Response :=
  (run emit (Get url);
   do w <- get;
   lift (server w url))%py.

(** [path.isfile(filename)] *)
Definition isfile (filename : string) : M World bool :=
  (do w <- get;
   ret (bool_decide (is_Some (files w !! filename))))%py.

(** [with open(filename, 'wb') as file: ... file.write(chunk)] *)
Definition save (filename : string) (body : bytes) : M World unit :=
  (do w <- get;
   if can_open w filename
   then modify (fun w => {| files := <[filename := body]> (files w);
                            trace := trace w ++ [Wrote filename] |})
   else raise (OSError filename))%py.

(** current_year *)
Definition current_year : M World Z :=
  (let the_year := now_year in
   run info ("The current year is " +:+ str_int the_year);
   ret the_year)%py.

(** The [for url in urls] loop of download_if_possible, from the
    candidates still to try; falling off its end returns False. *)
Fixpoint try_urls (urls : list string) (filename : string)
    (remaining : list string) : M World bool :=
  match remaining with
  | [] => ret false
  | url :: rest =>
      (do request <- requests_get url;
       if status_code request =? 404 then
         run warn ("URL " +:+ url +:+ " failed");
         try_urls urls filename rest
       else
         run lift (raise_for_status request);
         if negb (str_in (Download.url request) urls) then
           run warn ("URL " +:+ url +:+ " failed");
           try_urls urls filename rest
         else
           run info ("Downloading " +:+ url +:+ "...");
           run save filename (content request);
           ret true)%py
  end.

(** Download.download_if_possible *)
Definition download_if_possible (report : MonthlyDataReport)
  : M World bool :=
  (run emit (Attempt report);
   do filename <- lift (locate_excel_file report data_dir);
   do present <- isfile filename;
   if present then ret true
   else
     do urls <- lift (locate_possible_urls report);
     try_urls urls filename urls)%py.

(** Download.download_new *)
Definition download_new : M World unit :=
  (do this_year <- current_year;
   for_each (range 2012 (this_year + 1)) (fun year =>
     for_each all_months (fun month =>
       let report := {| year := year; month := month |} in
       do skip <- lift (has_no_data report);
       if skip then ret tt
       else
         do available <- download_if_possible report;
         if available then
           do name <- lift (month_str month);
           info ("Data from " +:+ name +:+ " " +:+ str_int year
                 +:+ " available")
         else ret tt)))%py.
End Environment.

End Download.

(** ** __main__.py *)

Module Main.

(** How a run of the program can stop short: an exception of the
    modelled code that nobody catches, [exit(code)], or [input()] at the
    end of the input. *)
Inductive stop : Type :=
| Uncaught (e : exn)
| SystemExit (code : Z)
| EOFError.

Inductive Outcome (A : Type) : Type :=
| Done (a : A)
| Stopped (s : stop).
Arguments Done {A} a.
Arguments Stopped {A} s.

(** The lines still to be read from standard input, the directories
    that exist, and the files and console log of download.py. The text
    of a prompt is not recorded. *)
Record World : Type := {
  stdin : list string;
  directories : gset string;
  disk : Download.World
}.

Definition Run (A : Type) : Type := World -> Outcome A * World.

Definition done {A} (a : A) : Run A := fun w => (Done a, w).
Definition halt {A} (s : stop) : Run A := fun w => (Stopped s, w).
Definition andthen {A B} (m : Run A) (k : A -> Run B) : Run B :=
  fun w => match m w with
           | (Done a, w') => k a w'
           | (Stopped s, w') => (Stopped s, w')
           end.

Definition with_disk (w : World) (d : Download.World) : World :=
  {| stdin := stdin w; directories := directories w; disk := d |}.

(** A computation of download.py, run on the disk of the program *)
Definition on_disk {A} (m : M Download.World A) : Run A :=
  fun w => match m (disk w) with
           | (Ok a, d) => (Done a, with_disk w d)
           | (Raise e, d) => (Stopped (Uncaught e), with_disk w d)
           end.

(** [input(prompt)] *)
Definition input : Run string :=
  fun w => match stdin w with
           | [] => (Stopped EOFError, w)
           | line :: rest =>
               (Done line, {| stdin := rest; directories := directories w;
                              disk := disk w |})
           end.

(** [os.makedirs(name)], with exist_ok left False: FileExistsError (an
    OSError) when the name is already there. *)
Definition makedirs (name : string) : Run unit :=
  fun w =>
    if bool_decide (name ∈ directories w)
       || bool_decide (is_Some (Download.files (disk w) !! name))
    then (Stopped (Uncaught (OSError name)), w)
    else (Done tt, {| stdin := stdin w;
                      directories := directories w ∪ {[name]};
                      disk := disk w |}).

Definition starts_with_sep (s : string) : bool :=
  match s with
  | String c _ => Ascii.eqb c "/"
  | EmptyString => false
  end.

Fixpoint ends_with_sep (s : string) : bool :=
  match s with
  | EmptyString => false
  | String c EmptyString => Ascii.eqb c "/"
  | String _ rest => ends_with_sep rest
  end.

(** [os.path.join(a, b)] of posixpath *)
Definition path_join (a b : string) : string :=
  if starts_with_sep b then b
  else if String.eqb a "" || ends_with_sep a then a +:+ b
  else a +:+ "/" +:+ b.

Section Program.
Variable server : Download.World -> string -> Result Download.Response.
Variable can_open : Download.World -> string -> bool.
Variable now_year : Z.
Variable load_workbook : bytes -> Result Merge.Workbook.
(** [os.listdir(path)]: the names in a directory, in the order the
    system gives them *)
Variable listdir : World -> string -> list string.

(** condense_existing: a new MergeXL, add_source on every name of the
    listing, then write_to. *)
Definition condense_existing (data_dir : string) : Run unit :=
  andthen (on_disk (Download.info "Condensing existing datasets")) (fun _ =>
  fun w =>
    let sources := path_join data_dir <$> listdir w data_dir in
    let mergexl :=
      {| Merge.engine := Merge.MergeXL_init;
         Merge.sheet_objects := ∅;
         Merge.timestamp_objects := ∅;
         Merge.files := Download.files (disk w) |} in
    match Merge.condense_existing load_workbook sources mergexl with
    | (Ok _, after) =>
        (Done tt, with_disk w {| Download.files := Merge.files after;
                                 Download.trace := Download.trace (disk w) |})
    | (Raise e, after) =>
        (Stopped (Uncaught e),
         with_disk w {| Download.files := Merge.files after;
                        Download.trace := Download.trace (disk w) |})
    end).

(** download_new of __main__.py *)
Definition download_new (data_dir : string) : Run unit :=
  andthen (on_disk (Download.info "Downloading new datasets")) (fun _ =>
  on_disk (Download.download_new server can_open now_year data_dir)).

(** The [while True] loop of main, over the input still to be read: an
    answer other than "1" and "2" asks again. *)
Fixpoint choose (data_dir : string) (pending : list string) : Run unit :=
  fun w =>
    match pending with
    | [] => (Stopped EOFError, w)
    | option :: rest =>
        let w' := {| stdin := rest; directories := directories w;
                     disk := disk w |} in
        if String.eqb option "1" then download_new data_dir w'
        else if String.eqb option "2" then condense_existing data_dir w'
        else choose data_dir rest w'
    end.

Definition one_character_warning : string :=
  "One-character data directories are not allowed (A mistake commonly caused by jumping to the question)".

(** main *)
Definition main : Run unit :=
  andthen (on_disk (Download.info "Program started")) (fun _ =>
  andthen input (fun answer =>
  andthen (if String.eqb answer "" then done "data"
           else if (String.length answer =? 1)%nat then
             andthen (on_disk (Download.warn one_character_warning)) (fun _ =>
             halt (SystemExit 1))
           else done answer) (fun data_dir =>
  andthen (makedirs data_dir) (fun _ =>
  andthen (fun w => choose data_dir (stdin w) w) (fun _ =>
  on_disk (Download.info "Program finished")))))).
End Program.

End Main.

(** ** Vocabulary of the specification, and sample inputs *)

(** The 1-based month numbers, written without padding *)
Definition month_numbers : list string :=
  ["1"; "2"; "3"; "4"; "5"; "6"; "7"; "8"; "9"; "10"; "11"; "12"].

(** The naming convention for a local file, in the words of the spec *)
Definition canonical_filename (directory year_text month_number : string)
  : string :=
  directory +:+ "/" +:+ year_text +:+ "-" +:+ month_number +:+ ".xlsx".

(** The invariant of a Sheet in the words of the spec: [columns] holds
    every column key of every stored row. *)
Definition columns_cover_rows (self : Merge.Sheet) : Prop :=
  forall timestamp row key,
    dict_get timestamp (Merge.rows self) = Some row ->
    key ∈ dict_keys (Merge.data row) ->
    key ∈ Merge.columns self.

(** [Sheet(set(), dict())] *)
Definition empty_sheet : Merge.Sheet :=
  {| Merge.columns := ∅; Merge.rows := [] |}.

(** A call on a Sheet, and the sheet left by a sequence of calls (a call
    that raises leaves the sheet as it was at that point). *)
Inductive sheet_call : Type :=
| EnsureColumn (column : string)
| AddRow (timestamp : ref) (row : Merge.RowData).

Definition perform (c : sheet_call) : M Merge.Sheet unit :=
  match c with
  | EnsureColumn column => Merge.ensure_column column
  | AddRow timestamp row => Merge.add_row timestamp row
  end.

Definition perform_all (calls : list sheet_call) (self : Merge.Sheet)
  : Merge.Sheet :=
  fold_left (fun sheet c => (perform c sheet).2) calls self.

(** The world right after [MergeXL()], with the given files on disk *)
Definition fresh_world (on_disk : gmap string bytes) : Merge.World :=
  {| Merge.engine := Merge.MergeXL_init;
     Merge.sheet_objects := ∅;
     Merge.timestamp_objects := ∅;
     Merge.files := on_disk |}.

(** The column set of the sheet stored under a name, if there is one *)
Definition sheet_columns (name : string) (w : Merge.World)
  : option (gset string) :=
  match dict_get name (Merge.sheets (Merge.engine w)) with
  | Some (Some sheet) => Merge.columns <$> Merge.sheet_objects w !! sheet
  | _ => None
  end.

(** The union of the column labels of all rows of a tab, over a list of
    workbooks: what the spec expects as the tab's column set. *)
Definition labels_seen (tab : string) (workbooks : list Merge.Workbook)
  : gset string :=
  list_to_set
    (flat_map (fun workbook =>
       flat_map (fun sheet =>
         if decide (Merge.title sheet = tab)
         then flat_map dict_keys (Merge.ws_rows sheet)
         else []) workbook) workbooks).

(** Two monthly files with a tab "Prices": columns A, B in January and
    B, C in February. *)
Definition january : Merge.Workbook :=
  [ {| Merge.title := "Prices";
       Merge.ws_rows := [[("A", Merge.CellNumber 1); ("B", Merge.CellNumber 2)]] |} ].

Definition february : Merge.Workbook :=
  [ {| Merge.title := "Prices";
       Merge.ws_rows := [[("B", Merge.CellNumber 3); ("C", Merge.CellNumber 4)]] |} ].

Definition two_months_load (content : bytes) : Result Merge.Workbook :=
  match content with
  | [Byte.x01] => Ok january
  | [Byte.x02] => Ok february
  | _ => Raise ValueError
  end.

Definition two_months_on_disk : gmap string bytes :=
  <["data/2021-1.xlsx" := [Byte.x01]]>
    (<["data/2021-2.xlsx" := [Byte.x02]]> ∅).

(** An engine that holds a sheet "Prices" with one row *)
Definition one_sheet_world : Merge.World :=
  {| Merge.engine := {| Merge.sheets := [("Prices", Some 1%positive)] |};
     Merge.sheet_objects :=
       {[ 1%positive :=
            {| Merge.columns := {["A"; "B"]};
               Merge.rows :=
                 [(2%positive,
                   {| Merge.data := [("A", Merge.CellNumber 1);
                                     ("B", Merge.CellNumber 2)] |})] |} ]};
     Merge.timestamp_objects :=
       {[ 2%positive := {| Merge.day := 1; Merge.month := 1; Merge.year := 2021 |} ]};
     Merge.files := ∅ |}.

(** A response that download_if_possible takes as "not published": a 404,
    or a final URL outside the candidates on a status that
    raise_for_status lets through. *)
Definition not_published (urls : list string) (r : Download.Response) : Prop :=
  Download.status_code r = 404 \/
  (~ (400 <= Download.status_code r < 600) /\ Download.url r ∉ urls).

(** What one refused candidate leaves in the trace *)
Definition refusal (url : string) : list Download.event :=
  [Download.Get url; Download.Warn ("URL " +:+ url +:+ " failed")].

(** A server on which nothing is published *)
Definition always_404 (w : Download.World) (u : string)
  : Result Download.Response :=
  Ok {| Download.status_code := 404; Download.url := u; Download.content := [] |}.

(** A server that sends every request to a maintenance page, with 503 *)
Definition under_maintenance (w : Download.World) (u : string)
  : Result Download.Response :=
  Ok {| Download.status_code := 503;
        Download.url := "https://www.bb.org.bd/maintenance.html";
        Download.content := [] |}.

Definition open_succeeds (w : Download.World) (filename : string) : bool := true.

Definition january_2021 : MonthlyDataReport :=
  {| year := 2021; month := {| month_index := 0 |} |}.

Definition january_2021_urls : list string :=
  Eval vm_compute in
    match locate_possible_urls january_2021 with Ok urls => urls | Raise _ => [] end.

Definition empty_disk : Download.World :=
  {| Download.files := ∅; Download.trace := [] |}.

(** An event is admitted when, if it is an Attempt, its report passes [P]. *)
Definition attempts_only (P : MonthlyDataReport -> Prop) (e : Download.event)
  : Prop :=
  match e with
  | Download.Attempt report => P report
  | _ => True
  end.

(** A computation that only appends admitted events to the trace *)
Definition emits (P : MonthlyDataReport -> Prop) {A : Type}
    (m : M Download.World A) : Prop :=
  forall w, exists new,
    Download.trace (m w).2 = Download.trace w ++ new /\
    Forall (attempts_only P) new.

Definition november_2015 : MonthlyDataReport :=
  {| year := 2015; month := {| month_index := 10 |} |}.

(** The reports handed to download_if_possible, read off a trace *)
Definition attempted (t : list Download.event) : list MonthlyDataReport :=
  flat_map (fun e => match e with Download.Attempt r => [r] | _ => [] end) t.


(** A call on a MergeXL, and the world left by a sequence of calls, each
    one made whether or not the one before it raised. *)
Inductive engine_call : Type :=
| AddSource (source_xl : string)
| WriteTo (output : string)
| GetOrCreateSheet (name : string).

Definition engine_perform (load_workbook : bytes -> Result Merge.Workbook)
    (c : engine_call) : M Merge.World unit :=
  match c with
  | AddSource source_xl => Merge.add_source load_workbook source_xl
  | WriteTo output => Merge.write_to output
  | GetOrCreateSheet name =>
      bind (Merge.get_or_create_sheet name) (fun _ => ret tt)
  end.

Definition engine_perform_all (load_workbook : bytes -> Result Merge.Workbook)
    (calls : list engine_call) (w : Merge.World) : Merge.World :=
  fold_left (fun w c => (engine_perform load_workbook c w).2) calls w.

(** A source that add_source reads without raising *)
Definition loads (load_workbook : bytes -> Result Merge.Workbook)
    (w : Merge.World) (source_xl : string) : Prop :=
  exists content workbook,
    Merge.files w !! source_xl = Some content /\
    load_workbook content = Ok workbook.

(** The URLs requested, read off a trace *)
Definition requested (t : list Download.event) : list string :=
  flat_map (fun e => match e with Download.Get u => [u] | _ => [] end) t.

(** What download_new does with one report: it is passed on unless
    has_no_data returns True (or raises). *)
Definition passed_on (report : MonthlyDataReport) : list MonthlyDataReport :=
  match has_no_data report with
  | Ok false => [report]
  | _ => []
  end.

(** The reports download_new passes to download_if_possible when nothing
    raises, in the order of its two loops. *)
Definition reports_to_download (now_year : Z) : list MonthlyDataReport :=
  flat_map (fun y =>
    flat_map (fun m => passed_on {| year := y; month := m |}) all_months)
    (range 2012 (now_year + 1)).

(** A computation that passes on exactly the reports [l], unless it
    raises, in which case it has passed on some first part of them. *)
Definition attempts_exactly (l : list MonthlyDataReport) {A : Type}
    (m : M Download.World A) : Prop :=
  forall w, exists new,
    Download.trace (m w).2 = Download.trace w ++ new /\
    attempted new `prefix_of` l /\
    (is_ok (m w).1 = true -> attempted new = l).

(** A computation that returns normally and leaves the files alone *)
Definition quiet {A : Type} (m : M Download.World A) : Prop :=
  forall w, exists a new,
    m w = (Ok a, {| Download.files := Download.files w;
                    Download.trace := Download.trace w ++ new |}).

(** A server on which every candidate is published under its own URL *)
Definition always_200 (w : Download.World) (u : string)
  : Result Download.Response :=
  Ok {| Download.status_code := 200; Download.url := u;
        Download.content := [Byte.x50; Byte.x4b] |}.

(** A disk that already holds the file of January 2021 *)
Definition january_on_disk : Download.World :=
  {| Download.files := {["data/2021-1.xlsx" := [Byte.x01]]};
     Download.trace := [] |}.

(** A computation that never changes or removes a file that is on disk *)
Definition keeps_files {A : Type} (m : M Download.World A) : Prop :=
  forall w, Download.files w ⊆ Download.files (m w).2.

(** An answer to the second question that asks it again *)
Definition other_answer (option : string) : Prop :=
  option <> "1" /\ option <> "2".

(** The directory main works on, for an answer to the first question *)
Definition chosen_directory (answer : string) : string :=
  if String.eqb answer "" then "data" else answer.

(** The log with one more line *)
Definition logged (d : Download.World) (e : Download.event) : Download.World :=
  {| Download.files := Download.files d;
     Download.trace := Download.trace d ++ [e] |}.

(** A directory listing with nothing in it *)
Definition empty_listing (w : Main.World) (path : string) : list string := [].

(** * Properties *)

(** ** Python runtime *)

Ltac settle_comparisons :=
  repeat (match goal with
          | |- context [?a <? ?b] =>
              first [ rewrite (proj2 (Z.ltb_lt a b)) by lia
                    | rewrite (proj2 (Z.ltb_ge a b)) by lia ]
          | |- context [?a <=? ?b] =>
              first [ rewrite (proj2 (Z.leb_le a b)) by lia
                    | rewrite (proj2 (Z.leb_gt a b)) by lia ]
          end; cbv iota).

Section IndexFacts.
Context {A : Type}.
Implicit Types (l : list A) (i : Z).

Lemma index_in_range l i :
  0 <= i < Z.of_nat (length l) ->
  exists x, l !! Z.to_nat i = Some x /\ index l i = Ok x.
Proof.
  intros Hi. cbv beta zeta delta [index]. settle_comparisons. simpl.
  destruct (lookup_lt_is_Some_2 l (Z.to_nat i)) as [x Hx]; [lia|].
  exists x. by rewrite Hx.
Qed.

Lemma index_from_end l i :
  - Z.of_nat (length l) <= i < 0 ->
  index l i = index l (i + Z.of_nat (length l)).
Proof.
  intros Hi. cbv beta zeta delta [index]. settle_comparisons. reflexivity.
Qed.

Lemma index_out_of_range l i :
  i < - Z.of_nat (length l) \/ Z.of_nat (length l) <= i ->
  index l i = Raise IndexError.
Proof.
  intros Hi. cbv beta zeta delta [index].
  destruct (Z_lt_le_dec i 0); settle_comparisons; simpl;
    rewrite ?orb_true_r; reflexivity.
Qed.

Lemma index_raises_iff l i :
  index l i = Raise IndexError <->
  (i < - Z.of_nat (length l) \/ Z.of_nat (length l) <= i).
Proof.
  split; [|apply index_out_of_range].
  intros Hr.
  destruct (Z_lt_le_dec i (- Z.of_nat (length l))) as [?|Hlo]; [by left|].
  destruct (Z_le_gt_dec (Z.of_nat (length l)) i) as [?|Hhi]; [by right|].
  exfalso.
  destruct (Z_lt_le_dec i 0) as [Hneg|Hpos].
  - rewrite index_from_end in Hr by lia.
    destruct (index_in_range l (i + Z.of_nat (length l))) as (x & _ & Hx);
      [lia|congruence].
  - destruct (index_in_range l i) as (x & _ & Hx); [lia|congruence].
Qed.

Lemma index_raises_only_IndexError l i e :
  index l i = Raise e -> e = IndexError.
Proof.
  cbv beta zeta delta [index]. intros H.
  repeat case_match; congruence.
Qed.
End IndexFacts.

(** ** common.py *)

Lemma month_index_cases (i : Z) :
  0 <= i <= 11 ->
  i = 0 \/ i = 1 \/ i = 2 \/ i = 3 \/ i = 4 \/ i = 5 \/
  i = 6 \/ i = 7 \/ i = 8 \/ i = 9 \/ i = 10 \/ i = 11.
Proof. lia. Qed.

Ltac each_month i H :=
  destruct (month_index_cases i H) as
    [->|[->|[->|[->|[->|[->|[->|[->|[->|[->|[->| ->]]]]]]]]]]].

Lemma short_name_valid (i : Z) :
  0 <= i <= 11 ->
  exists name, short_names !! Z.to_nat i = Some name /\
               short_name {| month_index := i |} = Ok name.
Proof. intros Hi. apply index_in_range. simpl. lia. Qed.

Lemma numerical_total (m : Month) : numerical m = Ok (month_index m + 1).
Proof. reflexivity. Qed.

(** C6, as the code has it: short_name raises (IndexError) exactly below
    -12 and above 11, an index from -12 to -1 counting from the end of the
    table of names; numerical never raises; so for an index from 0 to 11
    neither query fails. *)
Theorem month_queries_failure_domain (i : Z) :
  let m := {| month_index := i |} in
  (short_name m = Raise IndexError <-> (i < -12 \/ 11 < i)) /\
  (is_raise (short_name m) = true <-> (i < -12 \/ 11 < i)) /\
  numerical m = Ok (i + 1) /\
  ((0 <= i <= 11) -> is_ok (short_name m) = true /\ is_ok (numerical m) = true).
Proof.
  intros m. subst m.
  assert (Hiff : short_name {| month_index := i |} = Raise IndexError <->
                 (i < -12 \/ 11 < i)).
  { unfold short_name. rewrite index_raises_iff. simpl. lia. }
  split; [exact Hiff|]. split; [|split; [reflexivity|]].
  - split.
    + intros Hr. apply Hiff.
      destruct (short_name _) as [name|e] eqn:Hs; [discriminate Hr|].
      unfold short_name in Hs.
      by rewrite (index_raises_only_IndexError _ _ _ Hs).
    + intros Hr. apply Hiff in Hr. by rewrite Hr.
  - intros Hi. destruct (short_name_valid i Hi) as (name & _ & ->). done.
Qed.

(** April: both queries return. *)
Lemma month_queries_failure_domain_witness :
  0 <= 3 <= 11 /\
  is_ok (short_name {| month_index := 3 |}) = true /\
  is_ok (numerical {| month_index := 3 |}) = true.
Proof.
  split; [lia|].
  destruct (month_queries_failure_domain 3) as (_ & _ & _ & Hvalid).
  apply Hvalid. lia.
Defined.

(** C6, counterexample: index -1 lies outside [0,11], yet short_name
    returns the last name and numerical returns 0; index 12 makes
    short_name raise while numerical returns 13. *)
Lemma month_index_outside_range_accepted :
  short_name {| month_index := -1 |} = Ok "dec" /\
  numerical {| month_index := -1 |} = Ok 0 /\
  numerical {| month_index := 12 |} = Ok 13 /\
  ~ (forall i : Z, i < 0 \/ 11 < i ->
       is_raise (short_name {| month_index := i |}) = true \/
       is_raise (numerical {| month_index := i |}) = true).
Proof.
  repeat split.
  intros H. destruct (H (-1)) as [H1|H1]; [lia| |]; discriminate H1.
Qed.

Lemma str_int_month_number (i : Z) :
  0 <= i <= 11 -> month_numbers !! Z.to_nat i = Some (str_int (i + 1)).
Proof. intros Hi. each_month i Hi; vm_compute; reflexivity. Qed.

(** C8: for every year, every month index from 0 to 11 and every
    directory, locate_excel_file returns
    [{directory}/{year}-{monthNumber}.xlsx], where monthNumber is the
    (index+1)-th entry of "1", ..., "12" (1-based, not padded); the result
    depends on year, month and directory only. *)
Theorem locate_excel_file_convention (y i : Z) (directory : string) :
  0 <= i <= 11 ->
  (exists month_number,
      month_numbers !! Z.to_nat i = Some month_number /\
      month_number = str_int (i + 1) /\
      locate_excel_file {| year := y; month := {| month_index := i |} |} directory
      = Ok (canonical_filename directory (str_int y) month_number)) /\
  (forall r d,
      year r = y -> month_index (month r) = i -> d = directory ->
      locate_excel_file r d
      = locate_excel_file {| year := y; month := {| month_index := i |} |} directory).
Proof.
  intros Hi. split.
  - exists (str_int (i + 1)). split; [by apply str_int_month_number|].
    split; reflexivity.
  - intros [ry [ri]] d. simpl. by intros -> -> ->.
Qed.

Lemma locate_excel_file_convention_witness :
  0 <= 0 <= 11 /\
  locate_excel_file {| year := 2021; month := {| month_index := 0 |} |} "data"
  = Ok "data/2021-1.xlsx".
Proof.
  split; [lia|].
  destruct (locate_excel_file_convention 2021 0 "data") as [(mn & Hmn & _ & ->) _];
    [lia|].
  vm_compute in Hmn. injection Hmn as <-. vm_compute. reflexivity.
Defined.

Lemma has_no_data_valid (y i : Z) :
  0 <= i <= 11 ->
  has_no_data {| year := y; month := {| month_index := i |} |}
  = Ok ((i =? 10) && (y =? 2015)).
Proof.
  intros Hi. unfold has_no_data.
  each_month i Hi; lazy -[Z.eqb]; try reflexivity.
  by destruct (y =? 2015).
Qed.

(** C9: for every year and every month index from 0 to 11, has_no_data
    returns true exactly for November (index 10) of 2015: true for
    November 2015, false for November 2016 and for every other pair. *)
Theorem has_no_data_exactly_november_2015 (y i : Z) :
  0 <= i <= 11 ->
  has_no_data {| year := y; month := {| month_index := i |} |}
  = Ok (bool_decide (i = 10 /\ y = 2015)) /\
  has_no_data {| year := 2015; month := {| month_index := 10 |} |} = Ok true /\
  has_no_data {| year := 2016; month := {| month_index := 10 |} |} = Ok false.
Proof.
  intros Hi. split; [|split; reflexivity].
  rewrite has_no_data_valid by done. f_equal.
  destruct (Z.eqb_spec i 10), (Z.eqb_spec y 2015); simpl;
    symmetry; [apply bool_decide_eq_true_2|apply bool_decide_eq_false_2..];
    tauto.
Qed.

Lemma has_no_data_exactly_november_2015_witness :
  has_no_data {| year := 2016; month := {| month_index := 10 |} |} = Ok false /\
  has_no_data {| year := 2015; month := {| month_index := 10 |} |} = Ok true.
Proof.
  split.
  - destruct (has_no_data_exactly_november_2015 2016 10) as [H _]; [lia|].
    exact H.
  - destruct (has_no_data_exactly_november_2015 2015 10) as [H _]; [lia|].
    exact H.
Defined.

(** ** dicts *)

Section DictFacts.
Context {K V : Type} `{EqDecision K}.
Implicit Types (d : PyDict K V) (k : K) (v : V).

Lemma dict_get_set_eq d k v : dict_get k (dict_set k v d) = Some v.
Proof.
  induction d as [|[k' v'] d IH]; simpl.
  - by rewrite decide_True.
  - destruct (decide (k' = k)) as [->|Hne]; simpl.
    + by rewrite decide_True.
    + by rewrite decide_False.
Qed.

Lemma dict_get_set_ne d k k' v :
  k <> k' -> dict_get k' (dict_set k v d) = dict_get k' d.
Proof.
  intros Hne. induction d as [|[k0 v0] d IH]; simpl.
  - by rewrite decide_False.
  - destruct (decide (k0 = k)) as [->|Hne0]; simpl.
    + by rewrite !decide_False.
    + by rewrite IH.
Qed.

Lemma dict_get_Some_key d k v : dict_get k d = Some v -> k ∈ dict_keys d.
Proof.
  unfold dict_keys. induction d as [|[k' v'] d IH]; simpl; [done|].
  destruct (decide (k' = k)) as [->|Hne]; intros Hg.
  - apply list_elem_of_here.
  - apply list_elem_of_further. auto.
Qed.

Lemma dict_get_None_key d k : dict_get k d = None -> k ∉ dict_keys d.
Proof.
  unfold dict_keys. induction d as [|[k' v'] d IH]; simpl.
  - intros _. apply not_elem_of_nil.
  - destruct (decide (k' = k)) as [->|Hne]; [done|].
    intros Hg. apply not_elem_of_cons. split; [congruence|auto].
Qed.

(** Assigning to a key that is present keeps the keys and their order. *)
Lemma dict_keys_set_present d k v :
  k ∈ dict_keys d -> dict_keys (dict_set k v d) = dict_keys d.
Proof.
  unfold dict_keys. induction d as [|[k' v'] d IH]; simpl.
  - intros Hin. by apply not_elem_of_nil in Hin.
  - intros Hin. destruct (decide (k' = k)) as [->|Hne]; simpl; [done|].
    f_equal. apply IH. apply elem_of_cons in Hin as [->|Hin]; done.
Qed.

(** Assigning to a new key appends it. *)
Lemma dict_set_absent d k v :
  k ∉ dict_keys d -> dict_set k v d = d ++ [(k, v)].
Proof.
  unfold dict_keys. induction d as [|[k' v'] d IH]; simpl; [done|].
  intros Hin. apply not_elem_of_cons in Hin as [Hne Hin].
  rewrite decide_False by congruence. f_equal. auto.
Qed.

Lemma dict_keys_set d k v :
  dict_keys (dict_set k v d)
  = if decide (k ∈ dict_keys d) then dict_keys d else dict_keys d ++ [k].
Proof.
  destruct (decide (k ∈ dict_keys d)) as [Hin|Hin].
  - by apply dict_keys_set_present.
  - rewrite dict_set_absent by done. unfold dict_keys.
    by rewrite fmap_app.
Qed.

(** A dict never holds a key twice. *)
Lemma dict_set_NoDup d k v :
  NoDup (dict_keys d) -> NoDup (dict_keys (dict_set k v d)).
Proof.
  intros Hd. rewrite dict_keys_set. case_decide; [done|].
  apply NoDup_app. split; [done|]. split; [|apply NoDup_singleton].
  intros x Hx Hx'. apply list_elem_of_singleton in Hx'. by subst.
Qed.

Lemma dict_entries_absent d k : k ∉ dict_keys d -> dict_entries k d = [].
Proof.
  unfold dict_entries, dict_keys.
  induction d as [|[k' v'] d IH]; [done|].
  rewrite fmap_cons. intros Hin.
  apply not_elem_of_cons in Hin as [Hne Hin].
  rewrite filter_cons_False by (simpl in *; congruence). auto.
Qed.

Lemma dict_entries_set d k v :
  NoDup (dict_keys d) -> dict_entries k (dict_set k v d) = [v].
Proof.
  unfold dict_entries, dict_keys.
  induction d as [|[k' v'] d IH]; intros Hd.
  - cbn [dict_set]. by rewrite filter_cons_True.
  - rewrite fmap_cons in Hd. apply NoDup_cons in Hd as [Hk' Hd].
    cbn [dict_set]. destruct (decide (k' = k)) as [->|Hne].
    + rewrite filter_cons_True by done. rewrite fmap_cons. simpl snd.
      f_equal. by apply dict_entries_absent.
    + rewrite filter_cons_False by done. auto.
Qed.
End DictFacts.

(** ** merge.py: Sheet *)

Lemma ensure_column_spec (column : string) (self : Merge.Sheet) :
  Merge.ensure_column column self
  = (Ok tt, {| Merge.columns := Merge.columns self ∪ {[column]};
               Merge.rows := Merge.rows self |}).
Proof. reflexivity. Qed.

Lemma ensure_column_grows (column : string) (self : Merge.Sheet) :
  Merge.columns self ⊆ Merge.columns (Merge.ensure_column column self).2 /\
  column ∈ Merge.columns (Merge.ensure_column column self).2.
Proof. rewrite ensure_column_spec. simpl. set_solver. Qed.

Lemma ensure_column_keeps_invariant (column : string) (self : Merge.Sheet) :
  columns_cover_rows self ->
  columns_cover_rows (Merge.ensure_column column self).2.
Proof.
  intros Hinv t row key Ht Hkey. simpl in *.
  apply elem_of_union_l. by eapply Hinv.
Qed.

(** The loop of add_row touches the column set only, and only adds to it. *)
Lemma add_row_loop_frame (keys : list string) :
  forall (self s' : Merge.Sheet) (r : Result unit),
    for_each keys (fun key =>
      bind (lift (unpack2 key)) (fun cv => Merge.ensure_column (fst cv))) self
    = (r, s') ->
    Merge.rows s' = Merge.rows self /\
    Merge.columns self ⊆ Merge.columns s' /\
    (forall e, r = Raise e -> e = ValueError).
Proof.
  induction keys as [|key keys IH]; intros self s' r.
  - simpl. unfold ret. intros [= <- <-]. by repeat split.
  - cbn [for_each]. unfold bind at 1. unfold bind at 1, lift.
    destruct (unpack2 key) as [[col val]|e] eqn:Hkey.
    + rewrite ensure_column_spec. intros Hrest.
      apply IH in Hrest as (Hrows & Hcols & He). simpl in *.
      split; [done|]. split; [|done].
      etrans; [apply union_subseteq_l|exact Hcols].
    + intros [= <- <-]. split; [done|]. split; [done|].
      intros e' [= <-]. unfold unpack2 in Hkey.
      repeat case_match; congruence.
Qed.

Lemma add_row_Ok (timestamp : ref) (row : Merge.RowData)
    (self s' : Merge.Sheet) :
  Merge.add_row timestamp row self = (Ok tt, s') ->
  Merge.rows s' = dict_set timestamp row (Merge.rows self) /\
  Merge.columns self ⊆ Merge.columns s'.
Proof.
  unfold Merge.add_row. unfold bind at 1.
  destruct (for_each _ _ self) as [[[]|e] s1] eqn:Hloop; [|done].
  apply add_row_loop_frame in Hloop as (Hrows & Hcols & _).
  unfold modify. intros [= <-]. simpl. by rewrite Hrows.
Qed.

(** When add_row raises, it is a ValueError from the unpacking, and the
    row has not been stored. *)
Lemma add_row_Raise (timestamp : ref) (row : Merge.RowData)
    (self s' : Merge.Sheet) (e : exn) :
  Merge.add_row timestamp row self = (Raise e, s') ->
  e = ValueError /\
  Merge.rows s' = Merge.rows self /\
  Merge.columns self ⊆ Merge.columns s'.
Proof.
  unfold Merge.add_row. unfold bind at 1.
  destruct (for_each _ _ self) as [[[]|e'] s1] eqn:Hloop; [done|].
  apply add_row_loop_frame in Hloop as (Hrows & Hcols & He).
  intros [= <- <-]. split; [by apply He|done].
Qed.

(** The column set only grows, whatever add_row does. *)
Lemma add_row_columns_grow (timestamp : ref) (row : Merge.RowData)
    (self : Merge.Sheet) :
  Merge.columns self ⊆ Merge.columns (Merge.add_row timestamp row self).2.
Proof.
  destruct (Merge.add_row timestamp row self) as [[[]|e] s'] eqn:Hrun; simpl.
  - by apply add_row_Ok in Hrun as [_ ?].
  - by apply add_row_Raise in Hrun as (_ & _ & ?).
Qed.

Lemma columns_only_grow (calls : list sheet_call) (self : Merge.Sheet) :
  Merge.columns self ⊆ Merge.columns (perform_all calls self).
Proof.
  revert self. induction calls as [|c calls IH]; intros self; [done|].
  unfold perform_all in *. cbn [fold_left].
  etrans; [|apply IH].
  destruct c as [column|timestamp row]; simpl.
  - apply ensure_column_grows.
  - apply add_row_columns_grow.
Qed.

(** Two add_row calls under different Timestamp objects keep both rows. *)
Lemma add_row_distinct_timestamps (self s1 s2 : Merge.Sheet)
    (t1 t2 : ref) (r1 r2 : Merge.RowData) :
  t1 <> t2 ->
  Merge.add_row t1 r1 self = (Ok tt, s1) ->
  Merge.add_row t2 r2 s1 = (Ok tt, s2) ->
  dict_get t1 (Merge.rows s2) = Some r1 /\
  dict_get t2 (Merge.rows s2) = Some r2.
Proof.
  intros Hne H1 H2.
  apply add_row_Ok in H1 as [Hr1 _]. apply add_row_Ok in H2 as [Hr2 _].
  rewrite Hr2, Hr1. split; [|apply dict_get_set_eq].
  rewrite dict_get_set_ne by done. apply dict_get_set_eq.
Qed.

(** C4, where the code departs from it: on an empty sheet, add_row of a
    row whose only column is "M2" returns normally, stores the row, and
    leaves the column set at {"M"}: the stored key "M2" is not in
    [columns], so the invariant is broken. *)
Theorem add_row_breaks_columns_invariant :
  let row := {| Merge.data := [("M2", Merge.CellNumber 5)] |} in
  let after := {| Merge.columns := {["M"]}; Merge.rows := [(1%positive, row)] |} in
  columns_cover_rows empty_sheet /\
  Merge.add_row 1%positive row empty_sheet = (Ok tt, after) /\
  ("M2" ∉ Merge.columns after) /\
  ~ columns_cover_rows after.
Proof.
  intros row after. split; [|split; [|split]].
  - intros t r key Ht. discriminate Ht.
  - reflexivity.
  - simpl. set_solver.
  - intros Hinv.
    assert (Hin : "M2" ∈ Merge.columns after).
    { apply (Hinv 1%positive row "M2"); [reflexivity|].
      simpl. apply list_elem_of_here. }
    simpl in Hin. set_solver.
Qed.

(** A column label that is not two characters long makes add_row raise
    before the row is stored. *)
Example add_row_three_letter_label :
  Merge.add_row 1%positive {| Merge.data := [("CPI", Merge.CellNumber 5)] |}
    empty_sheet
  = (Raise ValueError, empty_sheet).
Proof. reflexivity. Qed.

(** C5, as the code has it: when two add_row calls with the same
    Timestamp object both return, the later row is the one stored for that
    timestamp, it is the only one, exactly as passed in, and no entry is
    added for it. *)
Theorem add_row_same_timestamp_replaces
    (self s1 s2 : Merge.Sheet) (timestamp : ref) (earlier later : Merge.RowData) :
  NoDup (dict_keys (Merge.rows self)) ->
  Merge.add_row timestamp earlier self = (Ok tt, s1) ->
  Merge.add_row timestamp later s1 = (Ok tt, s2) ->
  dict_get timestamp (Merge.rows s2) = Some later /\
  dict_entries timestamp (Merge.rows s2) = [later] /\
  dict_keys (Merge.rows s2) = dict_keys (Merge.rows s1) /\
  (forall other, other <> timestamp ->
     dict_get other (Merge.rows s2) = dict_get other (Merge.rows self)).
Proof.
  intros Hwf H1 H2.
  apply add_row_Ok in H1 as [Hr1 _]. apply add_row_Ok in H2 as [Hr2 _].
  rewrite Hr2, Hr1. split; [apply dict_get_set_eq|]. split; [|split].
  - apply dict_entries_set. by apply dict_set_NoDup.
  - apply dict_keys_set_present.
    eapply dict_get_Some_key, dict_get_set_eq.
  - intros other Hne. rewrite !dict_get_set_ne by done. reflexivity.
Qed.

Lemma add_row_same_timestamp_replaces_witness :
  let earlier := {| Merge.data := [("M1", Merge.CellNumber 1)] |} in
  let later := {| Merge.data := [("M2", Merge.CellNumber 2)] |} in
  exists s2,
    Merge.add_row 7%positive later
      (Merge.add_row 7%positive earlier empty_sheet).2 = (Ok tt, s2) /\
    dict_get 7%positive (Merge.rows s2) = Some later /\
    dict_entries 7%positive (Merge.rows s2) = [later].
Proof.
  intros earlier later.
  eexists. split; [reflexivity|].
  destruct (add_row_same_timestamp_replaces empty_sheet
              (Merge.add_row 7%positive earlier empty_sheet).2
              (Merge.add_row 7%positive later
                 (Merge.add_row 7%positive earlier empty_sheet).2).2
              7%positive earlier later) as (Hget & Hentries & _).
  - apply NoDup_nil_2.
  - reflexivity.
  - reflexivity.
  - split; [exact Hget|exact Hentries].
Defined.

(** C5, counterexample: two Timestamp objects with the same day, month
    and year are two keys; after add_row under each, the sheet holds both
    rows. *)
Lemma add_row_equal_fields_keeps_both_rows :
  let first_january := {| Merge.day := 1; Merge.month := 1; Merge.year := 2021 |} in
  let objects : gmap ref Merge.Timestamp :=
    <[1%positive := first_january]> (<[2%positive := first_january]> ∅) in
  let earlier := {| Merge.data := [("M1", Merge.CellNumber 1)] |} in
  let later := {| Merge.data := [("M2", Merge.CellNumber 2)] |} in
  objects !! 1%positive = objects !! 2%positive /\
  exists s1 s2,
    Merge.add_row 1%positive earlier empty_sheet = (Ok tt, s1) /\
    Merge.add_row 2%positive later s1 = (Ok tt, s2) /\
    Merge.rows s2 = [(1%positive, earlier); (2%positive, later)] /\
    dict_get 1%positive (Merge.rows s2) = Some earlier /\
    length (Merge.rows s2) = 2%nat.
Proof.
  intros first_january objects earlier later. split; [reflexivity|].
  eexists _, _. repeat split.
Qed.

(** ** merge.py: MergeXL *)

Lemma get_or_create_sheet_existing (w : Merge.World) (name : string)
    (existing : ref) :
  dict_get name (Merge.sheets (Merge.engine w)) = Some (Some existing) ->
  Merge.get_or_create_sheet name w = (Ok existing, w).
Proof.
  intros Hget. unfold Merge.get_or_create_sheet, bind, get.
  by rewrite Hget.
Qed.

Lemma get_or_create_sheet_first_seen (w : Merge.World) (name : string) :
  dict_get name (Merge.sheets (Merge.engine w)) = None ->
  Merge.get_or_create_sheet name w = (Raise (KeyError name), w).
Proof.
  intros Hget. unfold Merge.get_or_create_sheet, bind, get.
  by rewrite Hget.
Qed.

(** The creating branch is reached only from a name stored with the
    value None; it then puts a new empty sheet in that place. *)
Lemma get_or_create_sheet_stored_None (w : Merge.World) (name : string) :
  dict_get name (Merge.sheets (Merge.engine w)) = Some None ->
  exists new w',
    Merge.get_or_create_sheet name w = (Ok new, w') /\
    (new ∉ dom (Merge.sheet_objects w)) /\
    Merge.sheet_objects w' = <[new := empty_sheet]> (Merge.sheet_objects w) /\
    dict_get name (Merge.sheets (Merge.engine w')) = Some (Some new) /\
    dict_keys (Merge.sheets (Merge.engine w'))
    = dict_keys (Merge.sheets (Merge.engine w)).
Proof.
  intros Hget. unfold Merge.get_or_create_sheet, bind, get.
  rewrite Hget. unfold Merge.new_Sheet, Merge.set_sheet, modify, ret. simpl.
  eexists _, _. split; [reflexivity|]. simpl.
  split; [apply is_fresh|]. split; [reflexivity|].
  split; [apply dict_get_set_eq|].
  apply dict_keys_set_present. by eapply dict_get_Some_key.
Qed.

(** C3, where the code departs from it: on a new engine, the first
    request for the sheet "Prices" raises KeyError; nothing is created and
    nothing is stored. *)
Theorem get_or_create_sheet_first_seen_KeyError :
  dict_get "Prices" (Merge.sheets (Merge.engine (fresh_world ∅))) = None /\
  Merge.get_or_create_sheet "Prices" (fresh_world ∅)
  = (Raise (KeyError "Prices"), fresh_world ∅).
Proof. split; reflexivity. Qed.

(** add_source changes nothing, whatever the file holds. *)
Lemma add_source_world_unchanged (load_workbook : bytes -> Result Merge.Workbook)
    (source_xl : string) (w : Merge.World) :
  (Merge.add_source load_workbook source_xl w).2 = w.
Proof.
  unfold Merge.add_source, bind, get, lift, raise, ret.
  destruct (Merge.files w !! source_xl) as [content|]; [|done].
  by destruct (load_workbook content).
Qed.

Lemma add_sources_world_unchanged (load_workbook : bytes -> Result Merge.Workbook)
    (sources : list string) (w : Merge.World) :
  (for_each sources (Merge.add_source load_workbook) w).2 = w.
Proof.
  induction sources as [|source sources IH]; [done|].
  cbn [for_each]. unfold bind.
  pose proof (add_source_world_unchanged load_workbook source w) as Hw.
  destruct (Merge.add_source load_workbook source w) as [[[]|e] w1];
    simpl in Hw; subst w1; [exact IH|done].
Qed.

(** write_to changes nothing either: in particular no file appears. *)
Lemma write_to_world_unchanged (output : string) (w : Merge.World) :
  Merge.write_to output w = (Ok tt, w).
Proof. reflexivity. Qed.

(** C1, where the code departs from it: after add_source of the two
    files, in either order, the engine is as it was created: it has no
    sheet "Prices", while the labels seen for that tab are A, B and C. *)
Theorem add_source_leaves_no_sheet :
  let w := fresh_world two_months_on_disk in
  for_each ["data/2021-1.xlsx"; "data/2021-2.xlsx"]
    (Merge.add_source two_months_load) w = (Ok tt, w) /\
  for_each ["data/2021-2.xlsx"; "data/2021-1.xlsx"]
    (Merge.add_source two_months_load) w = (Ok tt, w) /\
  sheet_columns "Prices" w = None /\
  labels_seen "Prices" [january; february] = {["A"; "B"; "C"]}.
Proof. repeat split. Qed.

(** C2, where the code departs from it: condensing the two files ends
    normally and leaves the disk as it was, with no merged.xlsx; and
    write_to on an engine that holds a sheet writes no file either. *)
Theorem write_to_creates_no_workbook :
  let w := fresh_world two_months_on_disk in
  Merge.condense_existing two_months_load
    ["data/2021-1.xlsx"; "data/2021-2.xlsx"] w = (Ok tt, w) /\
  Merge.files w !! "merged.xlsx" = None /\
  Merge.write_to "merged.xlsx" one_sheet_world = (Ok tt, one_sheet_world) /\
  Merge.files one_sheet_world !! "merged.xlsx" = None.
Proof. repeat split. Qed.

(** ** download.py *)

Lemma str_in_false (x : string) (xs : list string) :
  x ∉ xs -> Download.str_in x xs = false.
Proof.
  unfold Download.str_in. induction xs as [|y xs IH]; [done|].
  intros Hin. apply not_elem_of_cons in Hin as [Hne Hin]. simpl.
  rewrite IH by done. by rewrite (proj2 (String.eqb_neq x y)).
Qed.

Lemma raise_for_status_passes (r : Download.Response) :
  ~ (400 <= Download.status_code r < 600) ->
  Download.raise_for_status r = Ok tt.
Proof.
  intros Hs. unfold Download.raise_for_status.
  destruct (Z.leb_spec 400 (Download.status_code r)),
           (Z.ltb_spec (Download.status_code r) 600); simpl; try done.
  lia.
Qed.

Section DownloadFacts.
Variable server : Download.World -> string -> Result Download.Response.
Variable can_open : Download.World -> string -> bool.
Variable data_dir : string.

Lemma try_urls_all_unavailable (urls : list string) (filename : string)
    (remaining : list string) :
  (forall w u, u ∈ remaining ->
     exists r, server w u = Ok r /\ not_published urls r) ->
  forall w,
    Download.try_urls server can_open urls filename remaining w
    = (Ok false,
       {| Download.files := Download.files w;
          Download.trace := Download.trace w ++ flat_map refusal remaining |}).
Proof.
  induction remaining as [|u rest IH]; intros Hall w.
  - simpl. unfold ret. rewrite app_nil_r. by destruct w.
  - cbn [Download.try_urls flat_map].
    unfold bind at 1. unfold Download.requests_get.
    unfold bind at 1, Download.emit, modify. unfold bind at 1, get, lift.
    destruct (Hall {| Download.files := Download.files w;
                      Download.trace := Download.trace w ++ [Download.Get u] |} u)
      as (r & -> & Hr); [apply list_elem_of_here|].
    assert (Hrest : forall w' u', u' ∈ rest ->
              exists r', server w' u' = Ok r' /\ not_published urls r').
    { intros w' u' Hu'. apply Hall. by apply list_elem_of_further. }
    destruct (Z.eqb_spec (Download.status_code r) 404) as [H404|H404].
    + unfold bind at 1, Download.warn, Download.emit, modify.
      etrans; [apply (IH Hrest)|]. simpl. by rewrite <- !app_assoc.
    + destruct Hr as [?|[Hstatus Hurl]]; [done|].
      unfold bind at 1, lift. rewrite raise_for_status_passes by done.
      rewrite str_in_false by done. simpl negb. cbv iota.
      unfold bind at 1, Download.warn, Download.emit, modify.
      etrans; [apply (IH Hrest)|]. simpl. by rewrite <- !app_assoc.
Qed.

(** C7, as the code has it: when the file is not on disk yet and every
    candidate URL answers with a 404, or with a status outside 400-599
    from a final URL that is not a candidate, download_if_possible
    returns False without raising; it has requested every candidate in
    order, warned after each, and written nothing. *)
Theorem download_if_possible_all_unavailable
    (report : MonthlyDataReport) (filename : string) (urls : list string)
    (w : Download.World) :
  locate_excel_file report data_dir = Ok filename ->
  Download.files w !! filename = None ->
  locate_possible_urls report = Ok urls ->
  (forall w' u, u ∈ urls ->
     exists r, server w' u = Ok r /\ not_published urls r) ->
  Download.download_if_possible server can_open data_dir report w
  = (Ok false,
     {| Download.files := Download.files w;
        Download.trace := Download.trace w ++
          Download.Attempt report :: flat_map refusal urls |}).
Proof.
  intros Hfile Habsent Hurls Hall.
  unfold Download.download_if_possible.
  unfold bind at 1, Download.emit, modify.
  unfold bind at 1, lift. rewrite Hfile.
  unfold bind at 1, Download.isfile. unfold bind at 1, get, ret. simpl.
  rewrite Habsent. rewrite bool_decide_eq_false_2 by (by intros [? ?]).
  unfold bind at 1, lift. rewrite Hurls.
  rewrite (try_urls_all_unavailable urls filename urls Hall). simpl.
  by rewrite <- app_assoc.
Qed.
End DownloadFacts.

Lemma download_if_possible_all_unavailable_witness :
  Download.download_if_possible always_404 open_succeeds "data" january_2021
    empty_disk
  = (Ok false,
     {| Download.files := ∅;
        Download.trace :=
          Download.Attempt january_2021 :: flat_map refusal january_2021_urls |}).
Proof.
  apply (download_if_possible_all_unavailable always_404 open_succeeds "data"
           january_2021 "data/2021-1.xlsx" january_2021_urls empty_disk).
  - vm_compute. reflexivity.
  - reflexivity.
  - vm_compute. reflexivity.
  - intros w' u _. eexists. split; [reflexivity|]. left. reflexivity.
Defined.

(** C7, counterexample: with every candidate answering 404,
    download_if_possible returns True when the file is already on disk
    (no request is made); and with every candidate redirected to a page
    outside the candidates that answers 503, it raises HTTPError. *)
Lemma download_if_possible_true_or_raises :
  let on_disk := {| Download.files := {["data/2021-1.xlsx" := [Byte.x01]]};
                    Download.trace := [] |} in
  (forall w u, exists r, always_404 w u = Ok r /\ Download.status_code r = 404) /\
  Download.download_if_possible always_404 open_succeeds "data" january_2021
    on_disk
  = (Ok true,
     {| Download.files := Download.files on_disk;
        Download.trace := [Download.Attempt january_2021] |}) /\
  (forall w u, exists r,
      under_maintenance w u = Ok r /\
      Download.str_in (Download.url r) january_2021_urls = false) /\
  Download.download_if_possible under_maintenance open_succeeds "data"
    january_2021 empty_disk
  = (Raise (HTTPError 503),
     {| Download.files := ∅;
        Download.trace :=
          [Download.Attempt january_2021;
           Download.Get "https://www.bb.org.bd/pub/monthly/econtrds/etjan21.xlsx"] |}).
Proof.
  intros on_disk. split; [|split; [|split]].
  - intros w u. eexists. split; reflexivity.
  - vm_compute. reflexivity.
  - intros w u. eexists. split; [reflexivity|]. vm_compute. reflexivity.
  - vm_compute. reflexivity.
Qed.

(** ** download.py: which reports download_new hands on *)

Section Emits.
Context (P : MonthlyDataReport -> Prop).

Lemma emits_ret {A} (a : A) : emits P (ret a).
Proof. intros w. exists []. by rewrite app_nil_r. Qed.

Lemma emits_raise {A} (e : exn) : emits P (@raise _ A e).
Proof. intros w. exists []. by rewrite app_nil_r. Qed.

Lemma emits_lift {A} (r : Result A) : emits P (lift r).
Proof. intros w. exists []. by rewrite app_nil_r. Qed.

Lemma emits_get : emits P (@get Download.World).
Proof. intros w. exists []. by rewrite app_nil_r. Qed.

Lemma emits_emit (e : Download.event) :
  attempts_only P e -> emits P (Download.emit e).
Proof. intros He w. exists [e]. split; [done|]. by apply Forall_singleton. Qed.

Lemma emits_bind {A B} (m : M Download.World A) (k : A -> M Download.World B) :
  emits P m -> (forall a, emits P (k a)) -> emits P (bind m k).
Proof.
  intros Hm Hk w. unfold bind.
  destruct (Hm w) as (new1 & Ht1 & Hn1).
  destruct (m w) as [[a|e] w1]; simpl in *.
  - destruct (Hk a w1) as (new2 & Ht2 & Hn2).
    exists (new1 ++ new2). rewrite Ht2, Ht1, app_assoc.
    split; [done|]. by apply Forall_app.
  - by exists new1.
Qed.

Lemma emits_for_each {A} (xs : list A) (body : A -> M Download.World unit) :
  (forall x, emits P (body x)) -> emits P (for_each xs body).
Proof.
  intros Hbody. induction xs as [|x xs IH]; simpl.
  - apply emits_ret.
  - apply emits_bind; [apply Hbody|]. intros _. exact IH.
Qed.

Lemma emits_bind_Ok {A B} (a : A) (k : A -> M Download.World B) :
  emits P (k a) -> emits P (bind (lift (Ok a)) k).
Proof. intros Hk w. exact (Hk w). Qed.

Lemma emits_bind_Raise {A B} (e : exn) (k : A -> M Download.World B) :
  emits P (bind (lift (Raise e)) k).
Proof. intros w. exists []. by rewrite app_nil_r. Qed.

Lemma emits_if {A} (b : bool) (m1 m2 : M Download.World A) :
  emits P m1 -> emits P m2 -> emits P (if b then m1 else m2).
Proof. by destruct b. Qed.
End Emits.

Create HintDb emits.
#[local] Hint Resolve emits_ret emits_raise emits_lift emits_get : emits.
#[local] Hint Extern 1 (emits _ (Download.emit _)) =>
  apply emits_emit; exact I : emits.
#[local] Hint Extern 1 (emits _ (Download.info _)) =>
  apply emits_emit; exact I : emits.
#[local] Hint Extern 1 (emits _ (Download.warn _)) =>
  apply emits_emit; exact I : emits.
#[local] Hint Extern 2 (emits _ (bind _ _)) =>
  apply emits_bind; [|intros ?] : emits.
#[local] Hint Extern 2 (emits _ (if _ then _ else _)) =>
  apply emits_if : emits.

Section DownloadNew.
Variable server : Download.World -> string -> Result Download.Response.
Variable can_open : Download.World -> string -> bool.
Variable now_year : Z.
Variable data_dir : string.
Context (P : MonthlyDataReport -> Prop).

Lemma emits_requests_get (u : string) :
  emits P (Download.requests_get server u).
Proof. unfold Download.requests_get. auto with emits. Qed.

Lemma emits_save (filename : string) (body : bytes) :
  emits P (Download.save can_open filename body).
Proof.
  unfold Download.save. apply emits_bind; [apply emits_get|]. intros w0.
  apply emits_if; [|apply emits_raise].
  intros w. exists [Download.Wrote filename]. split; [done|].
  by apply Forall_singleton.
Qed.

Lemma emits_try_urls (urls : list string) (filename : string)
    (remaining : list string) :
  emits P (Download.try_urls server can_open urls filename remaining).
Proof.
  induction remaining as [|u rest IH]; cbn [Download.try_urls].
  - apply emits_ret.
  - apply emits_bind; [apply emits_requests_get|]. intros request.
    apply emits_if; [auto with emits|].
    apply emits_bind; [apply emits_lift|]. intros _.
    apply emits_if; [auto with emits|].
    apply emits_bind; [auto with emits|]. intros _.
    apply emits_bind; [apply emits_save|]. intros _. apply emits_ret.
Qed.

Lemma emits_download_if_possible (report : MonthlyDataReport) :
  P report ->
  emits P (Download.download_if_possible server can_open data_dir report).
Proof.
  intros Hreport. unfold Download.download_if_possible.
  apply emits_bind; [by apply emits_emit|]. intros _.
  apply emits_bind; [apply emits_lift|]. intros filename.
  apply emits_bind; [unfold Download.isfile; auto with emits|]. intros present.
  apply emits_if; [apply emits_ret|].
  apply emits_bind; [apply emits_lift|]. intros urls.
  apply emits_try_urls.
Qed.
End DownloadNew.

(** C10: whatever the server, the disk and the current year, every
    report that download_new passes to download_if_possible has
    has_no_data() false; the report for November 2015 is never passed. *)
Theorem download_new_skips_reports_without_data
    (server : Download.World -> string -> Result Download.Response)
    (can_open : Download.World -> string -> bool)
    (now_year : Z) (data_dir : string) (w : Download.World) :
  exists new,
    Download.trace
      (Download.download_new server can_open now_year data_dir w).2
    = Download.trace w ++ new /\
    (forall report, Download.Attempt report ∈ new ->
       has_no_data report = Ok false) /\
    Download.Attempt november_2015 ∉ new.
Proof.
  assert (Hemits : emits (fun report => has_no_data report = Ok false)
            (Download.download_new server can_open now_year data_dir)).
  { unfold Download.download_new.
    apply emits_bind; [unfold Download.current_year; auto with emits|].
    intros this_year.
    apply emits_for_each. intros y. apply emits_for_each. intros m.
    destruct (has_no_data {| year := y; month := m |}) as [[]|e] eqn:Hskip.
    - apply emits_bind_Ok, emits_ret.
    - apply emits_bind_Ok.
      apply emits_bind; [by apply emits_download_if_possible|].
      intros available. apply emits_if; [|apply emits_ret].
      auto with emits.
    - apply emits_bind_Raise. }
  destruct (Hemits w) as (new & Htrace & Hnew).
  exists new. split; [exact Htrace|].
  assert (Hall : forall report, Download.Attempt report ∈ new ->
                   has_no_data report = Ok false).
  { intros report Hin. rewrite Forall_forall in Hnew.
    exact (Hnew _ Hin). }
  split; [exact Hall|].
  intros Hin. apply Hall in Hin. discriminate Hin.
Qed.

(** In 2015, with nothing published, the four years from 2012 give 47
    attempts: every month but November 2015; the one before December 2015
    is October 2015. *)
Example download_new_2015_attempts :
  let reports :=
    attempted (Download.trace
      (Download.download_new always_404 open_succeeds 2015 "data" empty_disk).2) in
  length reports = 47%nat /\
  reports !! 45%nat = Some {| year := 2015; month := {| month_index := 9 |} |} /\
  reports !! 46%nat = Some {| year := 2015; month := {| month_index := 11 |} |}.
Proof. vm_compute. repeat split. Qed.

(** * Further properties of the code *)

(** ** common.py *)

Lemma wide_index_cases (i : Z) :
  -12 <= i <= 11 -> -12 <= i < 0 \/ 0 <= i <= 11.
Proof. lia. Qed.

Lemma negative_index_cases (i : Z) :
  -12 <= i < 0 ->
  i = -12 \/ i = -11 \/ i = -10 \/ i = -9 \/ i = -8 \/ i = -7 \/
  i = -6 \/ i = -5 \/ i = -4 \/ i = -3 \/ i = -2 \/ i = -1.
Proof. lia. Qed.

Ltac each_negative_month i H :=
  destruct (negative_index_cases i H) as
    [->|[->|[->|[->|[->|[->|[->|[->|[->|[->|[->| ->]]]]]]]]]]].

(** A month index from -12 to -1 is read from the end of the table of
    names: Month(i) then has the short name of Month(i + 12), while its
    numerical form is 12 less. *)
Theorem short_name_counts_from_end (i : Z) :
  -12 <= i < 0 ->
  short_name {| month_index := i |} = short_name {| month_index := i + 12 |} /\
  is_ok (short_name {| month_index := i |}) = true /\
  numerical {| month_index := i |} = Ok (i + 1) /\
  i + 1 <= 0.
Proof.
  intros Hi. split; [|split; [|split; [reflexivity|lia]]].
  - unfold short_name. simpl month_index.
    rewrite index_from_end by (simpl; lia). reflexivity.
  - each_negative_month i Hi; reflexivity.
Qed.

Lemma short_name_counts_from_end_witness :
  -12 <= -1 < 0 /\
  short_name {| month_index := -1 |} = short_name {| month_index := 11 |}.
Proof.
  split; [lia|].
  destruct (short_name_counts_from_end (-1)) as [H _]; [lia|exact H].
Defined.

(** For a month index from 0 to 11, the short name is the first three
    letters of the full name, in lower case. *)
Theorem short_name_abbreviates_month_str (i : Z) :
  0 <= i <= 11 ->
  exists short full,
    short_name {| month_index := i |} = Ok short /\
    month_str {| month_index := i |} = Ok full /\
    short = lower (substring 0 3 full).
Proof.
  intros Hi. each_month i Hi; eexists _, _; repeat split.
Qed.

Lemma short_name_abbreviates_month_str_witness :
  0 <= 8 <= 11 /\
  exists short full,
    short_name {| month_index := 8 |} = Ok short /\
    month_str {| month_index := 8 |} = Ok full /\
    short = lower (substring 0 3 full).
Proof.
  split; [lia|]. apply short_name_abbreviates_month_str. lia.
Defined.

(** Two month indices from 0 to 11 with the same short name are the same
    index. *)
Theorem short_name_injective (i j : Z) :
  0 <= i <= 11 -> 0 <= j <= 11 ->
  short_name {| month_index := i |} = short_name {| month_index := j |} ->
  i = j.
Proof.
  intros Hi Hj.
  each_month i Hi; each_month j Hj; intros H; try reflexivity;
    vm_compute in H; discriminate H.
Qed.

Lemma short_name_injective_witness :
  0 <= 4 <= 11 /\ 4 = 4.
Proof.
  split; [lia|]. apply short_name_injective; [lia|lia|reflexivity].
Defined.

(** __str__ of a Month raises (IndexError) exactly for an index below
    -14 or above 11; for index -1 it returns the empty string, the first
    entry of calendar.month_name. *)
Theorem month_str_failure_domain (i : Z) :
  (month_str {| month_index := i |} = Raise IndexError <-> (i < -14 \/ 11 < i)) /\
  (is_ok (month_str {| month_index := i |}) = true <-> -14 <= i <= 11) /\
  month_str {| month_index := -1 |} = Ok "".
Proof.
  assert (Hiff : month_str {| month_index := i |} = Raise IndexError <->
                 (i < -14 \/ 11 < i)).
  { unfold month_str. rewrite index_raises_iff. simpl. lia. }
  split; [exact Hiff|]. split; [|reflexivity].
  destruct (month_str _) as [name|e] eqn:Hs; simpl.
  - split; [intros _|done].
    destruct (decide (-14 <= i <= 11)) as [?|Hout]; [done|].
    assert (Hr : Ok name = Raise IndexError) by (apply Hiff; lia).
    discriminate Hr.
  - split; [done|]. intros Hi.
    assert (He : e = IndexError)
      by (unfold month_str in Hs; by eapply index_raises_only_IndexError).
    subst e. destruct Hiff as [Hout _]. specialize (Hout eq_refl). lia.
Qed.

(** locate_possible_urls returns eight URLs, all below the directory of
    the bank's monthly publications, for every year and every month index
    from -12 to 11; for any other index it raises IndexError. *)
Theorem locate_possible_urls_domain (y i : Z) :
  let report := {| year := y; month := {| month_index := i |} |} in
  (-12 <= i <= 11 ->
   exists urls,
     locate_possible_urls report = Ok urls /\
     length urls = 8%nat /\
     Forall (fun u => exists rest, u = econtrds +:+ rest) urls) /\
  (i < -12 \/ 11 < i -> locate_possible_urls report = Raise IndexError).
Proof.
  intros report. subst report. split.
  - intros Hi.
    destruct (wide_index_cases i Hi) as [Hneg|Hpos];
      [each_negative_month i Hneg|each_month i Hpos];
      lazy -[str_int String.append econtrds];
      (eexists; split; [reflexivity|]; split; [reflexivity|]);
      repeat (apply Forall_cons; split; [eexists; reflexivity|]);
      apply Forall_nil_2.
  - intros Hi. unfold locate_possible_urls, short_name. simpl month.
    simpl month_index. rewrite index_out_of_range by (simpl; lia).
    reflexivity.
Qed.

Lemma locate_possible_urls_domain_witness :
  -12 <= 0 <= 11 /\
  exists urls,
    locate_possible_urls {| year := 2021; month := {| month_index := 0 |} |}
    = Ok urls /\ length urls = 8%nat.
Proof.
  split; [lia|].
  destruct (locate_possible_urls_domain 2021 0) as [Hin _].
  destruct Hin as (urls & Hurls & Hlen & _); [lia|].
  exists urls. split; [exact Hurls|exact Hlen].
Defined.

(** In May the short name and the lower-cased full name are both "may",
    so for every year the third and the fifth candidate are one and the
    same URL. *)
Theorem locate_possible_urls_may_repeats (y : Z) :
  exists urls url,
    locate_possible_urls {| year := y; month := {| month_index := 4 |} |}
    = Ok urls /\
    urls !! 2%nat = Some url /\
    urls !! 4%nat = Some url /\
    ~ NoDup urls.
Proof.
  eexists _, _. split; [|split; [|split]].
  - lazy -[str_int String.append econtrds]. reflexivity.
  - reflexivity.
  - reflexivity.
  - intros Hnd. apply NoDup_cons in Hnd as [_ Hnd].
    apply NoDup_cons in Hnd as [_ Hnd].
    apply NoDup_cons in Hnd as [Hnotin _].
    apply Hnotin. do 1 apply list_elem_of_further. apply list_elem_of_here.
Qed.

(** has_no_data over all integers: for a month index from -12 to 11 it
    returns whether the month is November (index 10, or -2 counted from
    the end) and the year is 2015; for any other index it raises
    IndexError. *)
Theorem has_no_data_all_indices (y i : Z) :
  let report := {| year := y; month := {| month_index := i |} |} in
  (-12 <= i <= 11 ->
   has_no_data report = Ok (bool_decide ((i = 10 \/ i = -2) /\ y = 2015))) /\
  (i < -12 \/ 11 < i -> has_no_data report = Raise IndexError).
Proof.
  intros report. subst report. split.
  - intros Hi.
    assert (Hrun : has_no_data {| year := y; month := {| month_index := i |} |}
                   = Ok (((i =? 10) || (i =? -2)) && (y =? 2015))).
    { destruct (wide_index_cases i Hi) as [Hneg|Hpos];
        [each_negative_month i Hneg|each_month i Hpos];
        lazy -[Z.eqb]; try reflexivity; by destruct (y =? 2015). }
    rewrite Hrun. f_equal. symmetry.
    destruct (Z.eqb_spec i 10), (Z.eqb_spec i (-2)), (Z.eqb_spec y 2015);
      simpl; first [apply bool_decide_eq_true_2; lia
                   |apply bool_decide_eq_false_2; lia].
  - intros Hi. unfold has_no_data, short_name. simpl month.
    simpl month_index. rewrite index_out_of_range by (simpl; lia).
    reflexivity.
Qed.

Lemma has_no_data_all_indices_witness :
  -12 <= -2 <= 11 /\
  has_no_data {| year := 2015; month := {| month_index := -2 |} |} = Ok true.
Proof.
  split; [lia|].
  destruct (has_no_data_all_indices 2015 (-2)) as [Hin _].
  rewrite Hin by lia. reflexivity.
Defined.

(** Strings as lists of characters *)
Lemma chars_app (s t : string) :
  list_ascii_of_string (s +:+ t)
  = list_ascii_of_string s ++ list_ascii_of_string t.
Proof. induction s as [|c s IH]; simpl; [done|]. by rewrite IH. Qed.

Lemma chars_inj (s t : string) :
  list_ascii_of_string s = list_ascii_of_string t -> s = t.
Proof.
  intros H. rewrite <- (string_of_list_ascii_of_string s),
    <- (string_of_list_ascii_of_string t). by rewrite H.
Qed.

(** A list is split in one way only at the last occurrence of an
    element. *)
Lemma split_at_last {A} (x : A) (l1 l2 r1 r2 : list A) :
  x ∉ r1 -> x ∉ r2 ->
  l1 ++ x :: r1 = l2 ++ x :: r2 ->
  l1 = l2 /\ r1 = r2.
Proof.
  intros Hr1 Hr2. revert l2.
  induction l1 as [|a l1 IH]; intros [|b l2]; simpl; intros Heq.
  - by injection Heq.
  - injection Heq as -> ->. exfalso. apply Hr1.
    apply elem_of_app. right. apply list_elem_of_here.
  - injection Heq as -> <-. exfalso. apply Hr2.
    apply elem_of_app. right. apply list_elem_of_here.
  - injection Heq as -> Heq. destruct (IH _ Heq) as [-> ->]. done.
Qed.

Lemma month_number_injective (i j : Z) :
  0 <= i <= 11 -> 0 <= j <= 11 ->
  str_int (i + 1) +:+ ".xlsx" = str_int (j + 1) +:+ ".xlsx" -> i = j.
Proof.
  intros Hi Hj.
  each_month i Hi; each_month j Hj; intros H; try reflexivity;
    vm_compute in H; discriminate H.
Qed.

Lemma month_number_no_dash (i : Z) :
  0 <= i <= 11 ->
  "-"%char ∉ list_ascii_of_string (str_int (i + 1) +:+ ".xlsx").
Proof.
  intros Hi.
  each_month i Hi; vm_compute; intros Hin;
    repeat (apply elem_of_cons in Hin as [Hin|Hin]; [discriminate Hin|]);
    by apply not_elem_of_nil in Hin.
Qed.

(** In one directory, two reports with month indices from 0 to 11 have
    the same file name only if they have the same year and the same
    month: no two reports share a file. *)
Theorem locate_excel_file_injective (directory : string) (y1 y2 i1 i2 : Z) :
  0 <= i1 <= 11 -> 0 <= i2 <= 11 ->
  locate_excel_file {| year := y1; month := {| month_index := i1 |} |} directory
  = locate_excel_file {| year := y2; month := {| month_index := i2 |} |} directory ->
  y1 = y2 /\ i1 = i2.
Proof.
  intros Hi1 Hi2. unfold locate_excel_file, numerical. simpl.
  intros [= Heq]. apply (inj (String.app directory)) in Heq.
  apply (inj (String.app "/")) in Heq.
  apply (f_equal list_ascii_of_string) in Heq.
  rewrite (chars_app (str_int y1)), (chars_app (str_int y2)) in Heq.
  rewrite !(chars_app "-") in Heq.
  cbn [list_ascii_of_string app] in Heq.
  apply split_at_last in Heq as [Hyear Hmonth];
    [|by apply month_number_no_dash..].
  split.
  - apply chars_inj in Hyear. by apply (inj pretty) in Hyear.
  - apply chars_inj in Hmonth. by apply month_number_injective.
Qed.

Lemma locate_excel_file_injective_witness :
  0 <= 0 <= 11 /\ 2021 = 2021 /\ 0 = 0.
Proof.
  split; [lia|].
  apply (locate_excel_file_injective "data" 2021 2021 0 0); [lia|lia|].
  reflexivity.
Defined.

(** ** merge.py *)







(** ensure_column is idempotent, leaves a sheet that already has the
    column as it is, and two calls commute. *)
Theorem ensure_column_idempotent_commutes (c1 c2 : string) (self : Merge.Sheet) :
  (Merge.ensure_column c1 (Merge.ensure_column c1 self).2).2
  = (Merge.ensure_column c1 self).2 /\
  (Merge.ensure_column c2 (Merge.ensure_column c1 self).2).2
  = (Merge.ensure_column c1 (Merge.ensure_column c2 self).2).2 /\
  (c1 ∈ Merge.columns self -> (Merge.ensure_column c1 self).2 = self).
Proof.
  rewrite !ensure_column_spec. simpl. repeat split.
  - f_equal. by rewrite <- (assoc_L (∪)), (idemp_L (∪)).
  - f_equal. by rewrite <- !(assoc_L (∪)), (comm_L (∪) {[c1]}).
  - intros Hin. destruct self as [cols rs]. simpl in *. f_equal.
    rewrite (comm_L (∪)). apply subseteq_union_1_L.
    by apply singleton_subseteq_l.
Qed.

(** get_or_create_sheet never adds a name to the mapping: the names are
    the same after the call in every case; it returns a sheet exactly
    when the name is one of them, and raises KeyError otherwise,
    changing nothing. *)
Theorem get_or_create_sheet_keeps_names (name : string) (w : Merge.World) :
  dict_keys (Merge.sheets (Merge.engine (Merge.get_or_create_sheet name w).2))
  = dict_keys (Merge.sheets (Merge.engine w)) /\
  (is_ok (Merge.get_or_create_sheet name w).1 = true <->
   name ∈ dict_keys (Merge.sheets (Merge.engine w))) /\
  (name ∉ dict_keys (Merge.sheets (Merge.engine w)) ->
   Merge.get_or_create_sheet name w = (Raise (KeyError name), w)).
Proof.
  destruct (dict_get name (Merge.sheets (Merge.engine w)))
    as [[existing|]|] eqn:Hget.
  - rewrite (get_or_create_sheet_existing w name existing Hget). simpl.
    split; [done|]. split.
    + split; [intros _; by eapply dict_get_Some_key|done].
    + intros Hnot. destruct Hnot. by eapply dict_get_Some_key.
  - destruct (get_or_create_sheet_stored_None w name Hget)
      as (new & w' & -> & _ & _ & _ & Hkeys). simpl.
    split; [done|]. split.
    + split; [intros _; by eapply dict_get_Some_key|done].
    + intros Hnot. destruct Hnot. by eapply dict_get_Some_key.
  - rewrite (get_or_create_sheet_first_seen w name Hget). simpl.
    split; [done|]. split; [|done].
    split; [done|]. intros Hin. by apply dict_get_None_key in Hget.
Qed.

(** When get_or_create_sheet returns a sheet, a second call with the
    same name returns that same sheet and changes nothing. *)
Theorem get_or_create_sheet_twice (name : string) (w w' : Merge.World)
    (sheet : ref) :
  Merge.get_or_create_sheet name w = (Ok sheet, w') ->
  Merge.get_or_create_sheet name w' = (Ok sheet, w').
Proof.
  destruct (dict_get name (Merge.sheets (Merge.engine w)))
    as [[existing|]|] eqn:Hget.
  - rewrite (get_or_create_sheet_existing w name existing Hget).
    intros [= <- <-]. by apply get_or_create_sheet_existing.
  - destruct (get_or_create_sheet_stored_None w name Hget)
      as (new & w1 & -> & _ & _ & Hstored & _).
    intros [= <- <-]. by apply get_or_create_sheet_existing.
  - rewrite (get_or_create_sheet_first_seen w name Hget). discriminate.
Qed.

Lemma get_or_create_sheet_twice_witness :
  Merge.get_or_create_sheet "Prices" one_sheet_world
  = (Ok 1%positive, one_sheet_world).
Proof.
  apply (get_or_create_sheet_twice "Prices" one_sheet_world). reflexivity.
Defined.

(** Through its own methods a MergeXL never gets a sheet: after any
    sequence of add_source, write_to and get_or_create_sheet calls on a
    new engine, the world is as at the start, and get_or_create_sheet
    raises KeyError for every name. *)
Theorem engine_never_gets_a_sheet
    (load_workbook : bytes -> Result Merge.Workbook)
    (on_disk : gmap string bytes) (calls : list engine_call) :
  engine_perform_all load_workbook calls (fresh_world on_disk)
  = fresh_world on_disk /\
  forall name,
    Merge.get_or_create_sheet name
      (engine_perform_all load_workbook calls (fresh_world on_disk))
    = (Raise (KeyError name), fresh_world on_disk).
Proof.
  assert (Hsame : engine_perform_all load_workbook calls (fresh_world on_disk)
                  = fresh_world on_disk).
  { unfold engine_perform_all.
    induction calls as [|c calls IH]; [done|]. cbn [fold_left].
    assert (Hc : (engine_perform load_workbook c (fresh_world on_disk)).2
                 = fresh_world on_disk).
    { destruct c as [source|output|name]; cbn [engine_perform].
      - apply add_source_world_unchanged.
      - reflexivity.
      - unfold bind.
        rewrite get_or_create_sheet_first_seen by reflexivity.
        reflexivity. }
    rewrite Hc. exact IH. }
  split; [exact Hsame|]. intros name. rewrite Hsame.
  by apply get_or_create_sheet_first_seen.
Qed.

Lemma add_source_loads (load_workbook : bytes -> Result Merge.Workbook)
    (w : Merge.World) (source_xl : string) :
  loads load_workbook w source_xl ->
  Merge.add_source load_workbook source_xl w = (Ok tt, w).
Proof.
  intros (content & workbook & Hfile & Hload).
  unfold Merge.add_source, bind, get, lift, ret. by rewrite Hfile, Hload.
Qed.

(** add_source raises OSError for a path that is not on disk, and the
    error of openpyxl for a file that does not load. *)
Lemma add_source_failure (load_workbook : bytes -> Result Merge.Workbook)
    (w : Merge.World) (source_xl : string) :
  (Merge.files w !! source_xl = None ->
   Merge.add_source load_workbook source_xl w = (Raise (OSError source_xl), w)) /\
  (forall content e,
     Merge.files w !! source_xl = Some content ->
     load_workbook content = Raise e ->
     Merge.add_source load_workbook source_xl w = (Raise e, w)).
Proof.
  unfold Merge.add_source, bind, get, lift, raise. split.
  - by intros ->.
  - by intros content e -> ->.
Qed.

(** condense_existing returns normally when every source loads, and
    otherwise stops at the first source that does not, raising that
    source's exception: the sources after it are not read and write_to
    is not reached. In both cases the world is as before. *)
Theorem condense_existing_stops_at_first_failure
    (load_workbook : bytes -> Result Merge.Workbook) (w : Merge.World) :
  (forall sources,
     Forall (loads load_workbook w) sources ->
     Merge.condense_existing load_workbook sources w = (Ok tt, w)) /\
  (forall before failing after e,
     Forall (loads load_workbook w) before ->
     (Merge.add_source load_workbook failing w).1 = Raise e ->
     Merge.condense_existing load_workbook (before ++ failing :: after) w
     = (Raise e, w)).
Proof.
  split.
  - intros sources Hall. unfold Merge.condense_existing. unfold bind at 1.
    assert (Hloop : for_each sources (Merge.add_source load_workbook) w
                    = (Ok tt, w)).
    { induction Hall as [|source sources Hsource _ IH]; [done|].
      cbn [for_each]. unfold bind. by rewrite add_source_loads. }
    by rewrite Hloop.
  - intros before failing after e Hall Hfail.
    unfold Merge.condense_existing. unfold bind at 1.
    assert (Hloop : for_each (before ++ failing :: after)
                      (Merge.add_source load_workbook) w = (Raise e, w)).
    { induction Hall as [|source sources Hsource _ IH].
      - cbn [app for_each]. unfold bind.
        pose proof (add_source_world_unchanged load_workbook failing w) as Hw.
        destruct (Merge.add_source load_workbook failing w) as [r w1].
        simpl in *. by subst.
      - cbn [app for_each]. unfold bind at 1.
        by rewrite add_source_loads. }
    by rewrite Hloop.
Qed.

Lemma condense_existing_stops_at_first_failure_witness :
  Merge.condense_existing two_months_load
    (["data/2021-1.xlsx"] ++ "data/2021-3.xlsx" :: ["data/2021-2.xlsx"])
    (fresh_world two_months_on_disk)
  = (Raise (OSError "data/2021-3.xlsx"), fresh_world two_months_on_disk).
Proof.
  destruct (condense_existing_stops_at_first_failure two_months_load
              (fresh_world two_months_on_disk)) as [_ Hstop].
  apply Hstop.
  - apply Forall_cons. split; [|apply Forall_nil_2].
    eexists _, _. split; reflexivity.
  - reflexivity.
Defined.

(** ** download.py: one report *)

Lemma requested_app (t1 t2 : list Download.event) :
  requested (t1 ++ t2) = requested t1 ++ requested t2.
Proof. unfold requested. apply flat_map_app. Qed.

Lemma requested_refusals (urls : list string) :
  requested (flat_map refusal urls) = urls.
Proof. induction urls as [|u urls IH]; simpl; [done|]. by rewrite IH. Qed.

Section OneReport.
Variable server : Download.World -> string -> Result Download.Response.
Variable can_open : Download.World -> string -> bool.
Variable data_dir : string.

(** What the loop over the candidates can do, whatever the server. *)
Lemma try_urls_outcome (urls : list string) (filename : string)
    (remaining : list string) :
  forall w r w',
    Download.try_urls server can_open urls filename remaining w = (r, w') ->
    exists new,
      Download.trace w' = Download.trace w ++ new /\
      attempted new = [] /\
      requested new `prefix_of` remaining /\
      match r with
      | Ok false =>
          Download.files w' = Download.files w /\ requested new = remaining
      | Ok true =>
          exists body,
            Download.files w' = <[filename := body]> (Download.files w)
      | Raise e => Download.files w' = Download.files w
      end.
Proof.
  induction remaining as [|u rest IH]; intros w r w' Hrun.
  - injection Hrun as <- <-. exists []. rewrite app_nil_r.
    split; [reflexivity|]. split; [reflexivity|].
    split; [apply prefix_nil|]. split; reflexivity.
  - cbn [Download.try_urls] in Hrun.
    unfold bind at 1 in Hrun. unfold Download.requests_get in Hrun.
    unfold bind at 1, Download.emit, modify in Hrun.
    unfold bind at 1, get, lift in Hrun.
    set (w1 := {| Download.files := Download.files w;
                  Download.trace := Download.trace w ++ [Download.Get u] |})
      in Hrun.
    assert (Hnext : forall log,
      Download.try_urls server can_open urls filename rest
        {| Download.files := Download.files w1;
           Download.trace := Download.trace w1 ++ [Download.Warn log] |}
      = (r, w') ->
      exists new,
        Download.trace w' = Download.trace w ++ new /\
        attempted new = [] /\
        requested new `prefix_of` u :: rest /\
        match r with
        | Ok false =>
            Download.files w' = Download.files w /\
            requested new = u :: rest
        | Ok true =>
            exists body,
              Download.files w' = <[filename := body]> (Download.files w)
        | Raise e => Download.files w' = Download.files w
        end).
    { intros log Hrest.
      apply IH in Hrest as (new & Htrace & Hnone & Hprefix & Hcase).
      exists (Download.Get u :: Download.Warn log :: new).
      split; [rewrite Htrace; simpl; by rewrite <- !app_assoc|].
      split; [exact Hnone|].
      split; [simpl; by apply prefix_cons|].
      destruct r as [[]|]; simpl in *.
      - exact Hcase.
      - destruct Hcase as [? ->]. done.
      - exact Hcase. }
    destruct (server w1 u) as [request|e] eqn:Hserver.
    2:{ injection Hrun as <- <-. exists [Download.Get u].
        split; [reflexivity|]. split; [reflexivity|].
        split; [apply (prefix_cons u [] rest), prefix_nil|reflexivity]. }
    destruct (Download.status_code request =? 404).
    { unfold bind at 1, Download.warn, Download.emit, modify in Hrun.
      by apply Hnext in Hrun. }
    unfold bind at 1, lift in Hrun.
    destruct (Download.raise_for_status request) as [[]|e] eqn:Hstatus.
    2:{ injection Hrun as <- <-. exists [Download.Get u].
        split; [reflexivity|]. split; [reflexivity|].
        split; [apply (prefix_cons u [] rest), prefix_nil|reflexivity]. }
    destruct (negb (Download.str_in (Download.url request) urls)).
    { unfold bind at 1, Download.warn, Download.emit, modify in Hrun.
      by apply Hnext in Hrun. }
    unfold bind at 1, Download.info, Download.emit, modify in Hrun.
    unfold bind at 1, Download.save in Hrun. unfold bind at 1, get in Hrun.
    destruct (can_open _ filename).
    + unfold modify, ret in Hrun. injection Hrun as <- <-.
      exists [Download.Get u; Download.Info ("Downloading " +:+ u +:+ "...");
              Download.Wrote filename].
      split; [simpl; by rewrite <- !app_assoc|]. split; [reflexivity|].
      split; [apply (prefix_cons u [] rest), prefix_nil|].
      by exists (Download.content request).
    + unfold raise in Hrun. injection Hrun as <- <-.
      exists [Download.Get u; Download.Info ("Downloading " +:+ u +:+ "...")].
      split; [simpl; by rewrite <- !app_assoc|]. split; [reflexivity|].
      split; [apply (prefix_cons u [] rest), prefix_nil|done].
Qed.

(** What download_if_possible can do, whatever the server. *)
Lemma download_if_possible_outcome (report : MonthlyDataReport)
    (filename : string) (w w' : Download.World) (r : Result bool) :
  locate_excel_file report data_dir = Ok filename ->
  Download.download_if_possible server can_open data_dir report w = (r, w') ->
  exists new,
    Download.trace w' = Download.trace w ++ Download.Attempt report :: new /\
    attempted new = [] /\
    match r with
    | Ok true =>
        (is_Some (Download.files w !! filename) /\
         Download.files w' = Download.files w /\ new = []) \/
        (Download.files w !! filename = None /\
         exists body,
           Download.files w' = <[filename := body]> (Download.files w))
    | Ok false =>
        Download.files w !! filename = None /\
        Download.files w' = Download.files w /\
        locate_possible_urls report = Ok (requested new)
    | Raise e => Download.files w' = Download.files w
    end.
Proof.
  intros Hfile Hrun. unfold Download.download_if_possible in Hrun.
  unfold bind at 1, Download.emit, modify in Hrun.
  unfold bind at 1, lift in Hrun. rewrite Hfile in Hrun.
  unfold bind at 1, Download.isfile in Hrun.
  unfold bind at 1, get, ret in Hrun. cbn [Download.files] in Hrun.
  destruct (Download.files w !! filename) as [present|] eqn:Hdisk.
  - rewrite bool_decide_eq_true_2 in Hrun by done.
    injection Hrun as <- <-. exists []. split; [reflexivity|].
    split; [reflexivity|]. left. by repeat split.
  - rewrite bool_decide_eq_false_2 in Hrun by (by intros [? ?]).
    unfold bind at 1, lift in Hrun.
    destruct (locate_possible_urls report) as [urls|e] eqn:Hurls.
    + apply try_urls_outcome in Hrun as (new & Htrace & Hnone & _ & Hcase).
      exists new. simpl in Htrace. rewrite <- app_assoc in Htrace.
      split; [exact Htrace|]. split; [exact Hnone|].
      destruct r as [[]|]; simpl in *.
      * right. split; [reflexivity|]. exact Hcase.
      * destruct Hcase as [-> ->]. by repeat split.
      * exact Hcase.
    + injection Hrun as <- <-. exists []. by repeat split.
Qed.

Lemma download_if_possible_present_run (report : MonthlyDataReport)
    (filename : string) (w : Download.World) :
  locate_excel_file report data_dir = Ok filename ->
  is_Some (Download.files w !! filename) ->
  Download.download_if_possible server can_open data_dir report w
  = (Ok true,
     {| Download.files := Download.files w;
        Download.trace := Download.trace w ++ [Download.Attempt report] |}).
Proof.
  intros Hfile Hdisk. unfold Download.download_if_possible.
  unfold bind at 1, Download.emit, modify.
  unfold bind at 1, lift. rewrite Hfile.
  unfold bind at 1, Download.isfile. unfold bind at 1, get, ret.
  cbn [Download.files]. by rewrite bool_decide_eq_true_2.
Qed.

(** A report whose file is already on disk: download_if_possible returns
    True at once; it makes no request and leaves every file as it is. *)
Theorem download_if_possible_file_present (report : MonthlyDataReport)
    (filename : string) (w : Download.World) :
  locate_excel_file report data_dir = Ok filename ->
  is_Some (Download.files w !! filename) ->
  exists w',
    Download.download_if_possible server can_open data_dir report w
    = (Ok true, w') /\
    Download.files w' = Download.files w /\
    Download.trace w' = Download.trace w ++ [Download.Attempt report] /\
    requested (Download.trace w') = requested (Download.trace w).
Proof.
  intros Hfile Hdisk. eexists. split.
  - by apply (download_if_possible_present_run report filename w).
  - simpl. split; [reflexivity|]. split; [reflexivity|].
    rewrite requested_app. simpl. by rewrite app_nil_r.
Qed.

(** "True means file exists or was downloaded": whenever
    download_if_possible returns True, the report's file is on disk
    afterwards. *)
Theorem download_if_possible_true_means_file (report : MonthlyDataReport)
    (filename : string) (w w' : Download.World) :
  locate_excel_file report data_dir = Ok filename ->
  Download.download_if_possible server can_open data_dir report w
  = (Ok true, w') ->
  is_Some (Download.files w' !! filename).
Proof.
  intros Hfile Hrun.
  destruct (download_if_possible_outcome report filename w w' _ Hfile Hrun)
    as (new & _ & _ & [(Hdisk & -> & _)|(_ & body & ->)]).
  - exact Hdisk.
  - rewrite lookup_insert_eq. by eexists.
Qed.

(** Whenever download_if_possible returns False, the file was not on
    disk, no file has changed, and the requests made were exactly the
    report's candidate URLs, in their order. *)
Theorem download_if_possible_false_means_all_tried
    (report : MonthlyDataReport) (filename : string) (w w' : Download.World) :
  locate_excel_file report data_dir = Ok filename ->
  Download.download_if_possible server can_open data_dir report w
  = (Ok false, w') ->
  Download.files w !! filename = None /\
  Download.files w' = Download.files w /\
  exists new,
    Download.trace w' = Download.trace w ++ new /\
    locate_possible_urls report = Ok (requested new).
Proof.
  intros Hfile Hrun.
  destruct (download_if_possible_outcome report filename w w' _ Hfile Hrun)
    as (new & Htrace & _ & Habsent & Hfiles & Hurls).
  split; [exact Habsent|]. split; [exact Hfiles|].
  exists (Download.Attempt report :: new). split; [exact Htrace|exact Hurls].
Qed.

(** Whatever the server answers and however the call ends,
    download_if_possible never changes or removes a file that is on
    disk, and the only file it can create is the report's own. *)
Theorem download_if_possible_keeps_files (report : MonthlyDataReport)
    (filename : string) (w w' : Download.World) (r : Result bool) :
  locate_excel_file report data_dir = Ok filename ->
  Download.download_if_possible server can_open data_dir report w = (r, w') ->
  (forall f content,
     Download.files w !! f = Some content ->
     Download.files w' !! f = Some content) /\
  (forall f, f <> filename ->
     Download.files w' !! f = Download.files w !! f).
Proof.
  intros Hfile Hrun.
  destruct (download_if_possible_outcome report filename w w' _ Hfile Hrun)
    as (new & _ & _ & Hcase).
  assert (Hfiles : Download.files w' = Download.files w \/
                   (Download.files w !! filename = None /\
                    exists body,
                      Download.files w' = <[filename := body]> (Download.files w))).
  { destruct r as [[]|]; [|left; tauto|by left].
    destruct Hcase as [(_ & ? & _)|?]; [by left|by right]. }
  destruct Hfiles as [->|(Habsent & body & ->)]; [done|]. split.
  - intros f content Hf. rewrite lookup_insert_ne; [done|]. congruence.
  - intros f Hne. by rewrite lookup_insert_ne.
Qed.

(** After a call that returned True, a second call for the same report
    returns True again without any request. *)
Theorem download_if_possible_again (report : MonthlyDataReport)
    (filename : string) (w w' : Download.World) :
  locate_excel_file report data_dir = Ok filename ->
  Download.download_if_possible server can_open data_dir report w
  = (Ok true, w') ->
  Download.download_if_possible server can_open data_dir report w'
  = (Ok true,
     {| Download.files := Download.files w';
        Download.trace := Download.trace w' ++ [Download.Attempt report] |}).
Proof.
  intros Hfile Hrun.
  apply (download_if_possible_present_run report filename w'); [done|].
  destruct (download_if_possible_outcome report filename w w' _ Hfile Hrun)
    as (new & _ & _ & [(Hdisk & -> & _)|(_ & body & ->)]).
  - exact Hdisk.
  - rewrite lookup_insert_eq. by eexists.
Qed.
End OneReport.

Lemma download_if_possible_file_present_witness :
  exists w',
    Download.download_if_possible always_404 open_succeeds "data" january_2021
      january_on_disk = (Ok true, w') /\
    Download.files w' = Download.files january_on_disk.
Proof.
  destruct (download_if_possible_file_present always_404 open_succeeds "data"
              january_2021 "data/2021-1.xlsx" january_on_disk)
    as (w' & Hrun & Hfiles & _).
  - vm_compute. reflexivity.
  - eexists. reflexivity.
  - exists w'. split; [exact Hrun|exact Hfiles].
Defined.

Lemma download_if_possible_true_means_file_witness :
  is_Some
    (Download.files
       (Download.download_if_possible always_200 open_succeeds "data"
          january_2021 empty_disk).2 !! "data/2021-1.xlsx").
Proof.
  apply (download_if_possible_true_means_file always_200 open_succeeds "data"
           january_2021 "data/2021-1.xlsx" empty_disk).
  - vm_compute. reflexivity.
  - vm_compute. reflexivity.
Defined.

Lemma download_if_possible_false_means_all_tried_witness :
  Download.files
    (Download.download_if_possible always_404 open_succeeds "data"
       january_2021 empty_disk).2
  = Download.files empty_disk.
Proof.
  destruct (download_if_possible_false_means_all_tried always_404 open_succeeds
              "data" january_2021 "data/2021-1.xlsx" empty_disk
              (Download.download_if_possible always_404 open_succeeds "data"
                 january_2021 empty_disk).2) as (_ & Hfiles & _).
  - vm_compute. reflexivity.
  - vm_compute. reflexivity.
  - exact Hfiles.
Defined.

Lemma download_if_possible_keeps_files_witness :
  Download.files
    (Download.download_if_possible always_200 open_succeeds "data"
       {| year := 2021; month := {| month_index := 1 |} |} january_on_disk).2
    !! "data/2021-1.xlsx"
  = Some [Byte.x01].
Proof.
  destruct (download_if_possible_keeps_files always_200 open_succeeds "data"
              {| year := 2021; month := {| month_index := 1 |} |}
              "data/2021-2.xlsx" january_on_disk
              (Download.download_if_possible always_200 open_succeeds "data"
                 {| year := 2021; month := {| month_index := 1 |} |}
                 january_on_disk).2 (Ok true)) as [Hkept _].
  - vm_compute. reflexivity.
  - vm_compute. reflexivity.
  - apply Hkept. reflexivity.
Defined.

Lemma download_if_possible_again_witness :
  (Download.download_if_possible always_200 open_succeeds "data" january_2021
     (Download.download_if_possible always_200 open_succeeds "data"
        january_2021 empty_disk).2).1
  = Ok true.
Proof.
  rewrite (download_if_possible_again always_200 open_succeeds "data"
             january_2021 "data/2021-1.xlsx" empty_disk
             (Download.download_if_possible always_200 open_succeeds "data"
                january_2021 empty_disk).2).
  - reflexivity.
  - vm_compute. reflexivity.
  - vm_compute. reflexivity.
Defined.


Section FirstAnswer.
Variable server : Download.World -> string -> Result Download.Response.
Variable can_open : Download.World -> string -> bool.
Variable data_dir : string.

(** Candidates that are refused are passed over one after the other. *)
Lemma try_urls_skips_refused (urls : list string) (filename : string)
    (before rest : list string) :
  (forall w u, u ∈ before ->
     exists r, server w u = Ok r /\ not_published urls r) ->
  forall w,
    Download.try_urls server can_open urls filename (before ++ rest) w
    = Download.try_urls server can_open urls filename rest
        {| Download.files := Download.files w;
           Download.trace := Download.trace w ++ flat_map refusal before |}.
Proof.
  induction before as [|u before IH]; intros Hall w.
  - simpl. rewrite app_nil_r. by destruct w.
  - cbn [app Download.try_urls flat_map].
    unfold bind at 1. unfold Download.requests_get.
    unfold bind at 1, Download.emit, modify. unfold bind at 1, get, lift.
    destruct (Hall {| Download.files := Download.files w;
                      Download.trace := Download.trace w ++ [Download.Get u] |} u)
      as (r & -> & Hr); [apply list_elem_of_here|].
    assert (Hrest : forall w' u', u' ∈ before ->
              exists r', server w' u' = Ok r' /\ not_published urls r').
    { intros w' u' Hu'. apply Hall. by apply list_elem_of_further. }
    destruct (Z.eqb_spec (Download.status_code r) 404) as [H404|H404].
    + unfold bind at 1, Download.warn, Download.emit, modify.
      etrans; [apply (IH Hrest)|]. simpl. by rewrite <- !app_assoc.
    + destruct Hr as [?|[Hstatus Hurl]]; [done|].
      unfold bind at 1, lift. rewrite raise_for_status_passes by done.
      rewrite str_in_false by done. simpl negb. cbv iota.
      unfold bind at 1, Download.warn, Download.emit, modify.
      etrans; [apply (IH Hrest)|]. simpl. by rewrite <- !app_assoc.
Qed.

Lemma download_if_possible_absent_run (report : MonthlyDataReport)
    (filename : string) (urls : list string) (w : Download.World) :
  locate_excel_file report data_dir = Ok filename ->
  Download.files w !! filename = None ->
  locate_possible_urls report = Ok urls ->
  Download.download_if_possible server can_open data_dir report w
  = Download.try_urls server can_open urls filename urls
      {| Download.files := Download.files w;
         Download.trace := Download.trace w ++ [Download.Attempt report] |}.
Proof.
  intros Hfile Habsent Hurls. unfold Download.download_if_possible.
  unfold bind at 1, Download.emit, modify.
  unfold bind at 1, lift. rewrite Hfile.
  unfold bind at 1, Download.isfile. unfold bind at 1, get, ret.
  cbn [Download.files]. rewrite Habsent.
  rewrite bool_decide_eq_false_2 by (by intros [? ?]).
  unfold bind at 1, lift. by rewrite Hurls.
Qed.


(** An exception at a candidate ends the call: when the candidates
    before it are all refused and the request for it fails, or its answer
    has a status in 400-599 other than 404, download_if_possible raises
    that exception; no file is written and the candidates after it are
    not requested. *)
Theorem download_if_possible_exception_propagates
    (report : MonthlyDataReport) (filename : string)
    (before after : list string) (u : string) (e : exn)
    (w : Download.World) :
  locate_excel_file report data_dir = Ok filename ->
  Download.files w !! filename = None ->
  locate_possible_urls report = Ok (before ++ u :: after) ->
  (forall w' u', u' ∈ before ->
     exists r, server w' u' = Ok r /\ not_published (before ++ u :: after) r) ->
  (forall w',
     server w' u = Raise e \/
     exists r, server w' u = Ok r /\
               Download.status_code r <> 404 /\
               Download.raise_for_status r = Raise e) ->
  Download.download_if_possible server can_open data_dir report w
  = (Raise e,
     {| Download.files := Download.files w;
        Download.trace :=
          Download.trace w ++ Download.Attempt report ::
            flat_map refusal before ++ [Download.Get u] |}).
Proof.
  intros Hfile Habsent Hurls Hbefore Hfails.
  rewrite (download_if_possible_absent_run report filename _ w Hfile Habsent Hurls).
  rewrite try_urls_skips_refused by exact Hbefore.
  cbn [Download.try_urls Download.files Download.trace].
  unfold bind at 1. unfold Download.requests_get.
  unfold bind at 1, Download.emit, modify. unfold bind at 1, get, lift.
  match goal with
  | |- context [server ?w1 u] => destruct (Hfails w1) as [->|(r & -> & H404 & Hr)]
  end.
  - f_equal. f_equal. rewrite <- ?app_assoc. simpl. by rewrite <- ?app_assoc.
  - rewrite (proj2 (Z.eqb_neq _ _) H404).
    unfold bind at 1, lift. rewrite Hr.
    f_equal. f_equal. rewrite <- ?app_assoc. simpl. by rewrite <- ?app_assoc.
Qed.
End FirstAnswer.


Lemma download_if_possible_exception_propagates_witness :
  Download.download_if_possible under_maintenance open_succeeds "data"
    january_2021 empty_disk
  = (Raise (HTTPError 503),
     {| Download.files := ∅;
        Download.trace :=
          [Download.Attempt january_2021;
           Download.Get "https://www.bb.org.bd/pub/monthly/econtrds/etjan21.xlsx"] |}).
Proof.
  apply (download_if_possible_exception_propagates under_maintenance
           open_succeeds "data" january_2021 "data/2021-1.xlsx" []
           (tail january_2021_urls)
           "https://www.bb.org.bd/pub/monthly/econtrds/etjan21.xlsx"
           (HTTPError 503) empty_disk).
  - vm_compute. reflexivity.
  - reflexivity.
  - vm_compute. reflexivity.
  - intros w' u' Hin. by apply not_elem_of_nil in Hin.
  - intros w'. right. eexists. split; [reflexivity|]. split; [|reflexivity].
    simpl. lia.
Defined.

(** ** download.py: the whole run *)

Lemma locate_excel_file_total (report : MonthlyDataReport) (data_dir : string) :
  exists filename, locate_excel_file report data_dir = Ok filename.
Proof. by eexists. Qed.

Section KeepsFiles.
Lemma keeps_files_ret {A} (a : A) : keeps_files (@ret Download.World A a).
Proof. by intros w. Qed.

Lemma keeps_files_lift {A} (r : Result A) :
  keeps_files (@lift Download.World A r).
Proof. by intros w. Qed.

Lemma keeps_files_emit (e : Download.event) : keeps_files (Download.emit e).
Proof. by intros w. Qed.

Lemma keeps_files_bind {A B} (m : M Download.World A)
    (k : A -> M Download.World B) :
  keeps_files m -> (forall a, keeps_files (k a)) -> keeps_files (bind m k).
Proof.
  intros Hm Hk w. unfold bind. specialize (Hm w).
  destruct (m w) as [[a|e] w1]; simpl in *; [|done].
  etrans; [exact Hm|apply Hk].
Qed.

Lemma keeps_files_for_each {A} (xs : list A)
    (body : A -> M Download.World unit) :
  (forall x, keeps_files (body x)) -> keeps_files (for_each xs body).
Proof.
  intros Hbody. induction xs as [|x xs IH]; simpl.
  - apply keeps_files_ret.
  - apply keeps_files_bind; [apply Hbody|]. intros _. exact IH.
Qed.

Lemma keeps_files_if {A} (b : bool) (m1 m2 : M Download.World A) :
  keeps_files m1 -> keeps_files m2 -> keeps_files (if b then m1 else m2).
Proof. by destruct b. Qed.
End KeepsFiles.

Section WholeRun.
Variable server : Download.World -> string -> Result Download.Response.
Variable can_open : Download.World -> string -> bool.
Variable now_year : Z.
Variable data_dir : string.

Lemma keeps_files_download_if_possible (report : MonthlyDataReport) :
  keeps_files (Download.download_if_possible server can_open data_dir report).
Proof.
  intros w.
  destruct (locate_excel_file_total report data_dir) as [filename Hfile].
  destruct (Download.download_if_possible server can_open data_dir report w)
    as [r w'] eqn:Hrun. simpl.
  destruct (download_if_possible_outcome server can_open data_dir report
              filename w w' r Hfile Hrun) as (new & _ & _ & Hcase).
  destruct r as [[]|].
  - destruct Hcase as [(_ & -> & _)|(Habsent & body & ->)]; [done|].
    by apply insert_subseteq.
  - by destruct Hcase as (_ & -> & _).
  - by rewrite Hcase.
Qed.

Lemma keeps_files_download_new :
  keeps_files (Download.download_new server can_open now_year data_dir).
Proof.
  unfold Download.download_new.
  apply keeps_files_bind.
  { unfold Download.current_year. apply keeps_files_bind;
      [apply keeps_files_emit|intros _; apply keeps_files_ret]. }
  intros this_year. apply keeps_files_for_each. intros y.
  apply keeps_files_for_each. intros m.
  apply keeps_files_bind; [apply keeps_files_lift|]. intros skip.
  apply keeps_files_if; [apply keeps_files_ret|].
  apply keeps_files_bind; [apply keeps_files_download_if_possible|].
  intros available. apply keeps_files_if; [|apply keeps_files_ret].
  apply keeps_files_bind; [apply keeps_files_lift|]. intros name.
  apply keeps_files_emit.
Qed.

(** download_new never changes or removes a file that is on disk,
    whatever the server answers, whatever the year, and however the run
    ends. *)
Theorem download_new_keeps_existing_files (w : Download.World)
    (f : string) (content : bytes) :
  Download.files w !! f = Some content ->
  Download.files
    (Download.download_new server can_open now_year data_dir w).2 !! f
  = Some content.
Proof.
  intros Hf. eapply lookup_weaken; [exact Hf|].
  apply keeps_files_download_new.
Qed.

(** Before 2012 there is nothing to download: download_new logs the
    year and returns, without passing on a single report. *)
Theorem download_new_before_2012 (w : Download.World) :
  now_year < 2012 ->
  Download.download_new server can_open now_year data_dir w
  = (Ok tt,
     {| Download.files := Download.files w;
        Download.trace :=
          Download.trace w ++
          [Download.Info ("The current year is " +:+ str_int now_year)] |}).
Proof.
  intros Hyear. unfold Download.download_new.
  unfold bind at 1, Download.current_year.
  unfold bind at 1, Download.info, Download.emit, modify, ret.
  unfold range. rewrite seqZ_nil by lia. reflexivity.
Qed.
End WholeRun.

Lemma download_new_keeps_existing_files_witness :
  Download.files
    (Download.download_new always_200 open_succeeds 2012 "data"
       {| Download.files := {["data/2012-1.xlsx" := [Byte.x01]]};
          Download.trace := [] |}).2 !! "data/2012-1.xlsx"
  = Some [Byte.x01].
Proof.
  apply (download_new_keeps_existing_files always_200 open_succeeds 2012 "data").
  reflexivity.
Defined.

Lemma download_new_before_2012_witness :
  Download.download_new always_200 open_succeeds 2011 "data" empty_disk
  = (Ok tt,
     {| Download.files := ∅;
        Download.trace := [Download.Info "The current year is 2011"] |}).
Proof.
  rewrite (download_new_before_2012 always_200 open_succeeds 2011 "data")
    by lia.
  vm_compute. reflexivity.
Defined.

Lemma attempted_app (t1 t2 : list Download.event) :
  attempted (t1 ++ t2) = attempted t1 ++ attempted t2.
Proof. unfold attempted. apply flat_map_app. Qed.

Lemma elem_of_attempted (report : MonthlyDataReport) (t : list Download.event) :
  report ∈ attempted t <-> Download.Attempt report ∈ t.
Proof.
  induction t as [|e t IH]; simpl.
  - split; intros H; by apply not_elem_of_nil in H.
  - rewrite elem_of_app, IH, elem_of_cons.
    destruct e as [r| | | |]; simpl;
      rewrite ?list_elem_of_singleton; split;
      try (intros [H|H]; [by apply not_elem_of_nil in H|by right]);
      try (intros [H|H]; [discriminate H|by right]).
    + intros [->|H]; [by left|by right].
    + intros [[= ->]|H]; [by left|by right].
Qed.

Lemma no_attempts (new : list Download.event) :
  Forall (attempts_only (fun _ => False)) new -> attempted new = [].
Proof.
  induction 1 as [|e new He _ IH]; [done|].
  destruct e; simpl in *; [done|exact IH..].
Qed.

Section AttemptsExactly.
Lemma attempts_exactly_nothing {A} (m : M Download.World A) :
  emits (fun _ => False) m -> attempts_exactly [] m.
Proof.
  intros Hm w. destruct (Hm w) as (new & Htrace & Hnew).
  exists new. rewrite (no_attempts new Hnew). by repeat split.
Qed.

Lemma attempts_exactly_bind {A B} (l1 l2 : list MonthlyDataReport)
    (m : M Download.World A) (k : A -> M Download.World B) :
  attempts_exactly l1 m -> (forall a, attempts_exactly l2 (k a)) ->
  attempts_exactly (l1 ++ l2) (bind m k).
Proof.
  intros Hm Hk w. unfold bind.
  destruct (Hm w) as (new1 & Ht1 & Hp1 & He1).
  destruct (m w) as [[a|e] w1]; simpl in *.
  - destruct (Hk a w1) as (new2 & Ht2 & Hp2 & He2).
    exists (new1 ++ new2). rewrite Ht2, Ht1, app_assoc, attempted_app.
    rewrite (He1 eq_refl). split; [done|].
    split; [by apply prefix_app|]. intros Hok. by rewrite (He2 Hok).
  - exists new1. split; [done|]. split; [by apply prefix_app_r|done].
Qed.

Lemma attempts_exactly_bind_Ok {A B} (l : list MonthlyDataReport) (a : A)
    (k : A -> M Download.World B) :
  attempts_exactly l (k a) -> attempts_exactly l (bind (lift (Ok a)) k).
Proof. intros Hk w. exact (Hk w). Qed.

Lemma attempts_exactly_bind_Raise {A B} (l : list MonthlyDataReport) (e : exn)
    (k : A -> M Download.World B) :
  attempts_exactly l (bind (lift (Raise e)) k).
Proof.
  intros w. exists []. rewrite app_nil_r. simpl.
  split; [done|]. split; [apply prefix_nil|done].
Qed.

Lemma attempts_exactly_for_each {A} (f : A -> list MonthlyDataReport)
    (xs : list A) (body : A -> M Download.World unit) :
  (forall x, attempts_exactly (f x) (body x)) ->
  attempts_exactly (flat_map f xs) (for_each xs body).
Proof.
  intros Hbody. induction xs as [|x xs IH]; simpl.
  - intros w. exists []. rewrite app_nil_r. by repeat split.
  - apply attempts_exactly_bind; [apply Hbody|]. intros _. exact IH.
Qed.
End AttemptsExactly.

Section Attempts.
Variable server : Download.World -> string -> Result Download.Response.
Variable can_open : Download.World -> string -> bool.
Variable now_year : Z.
Variable data_dir : string.

Lemma attempts_exactly_download_if_possible (report : MonthlyDataReport) :
  attempts_exactly [report]
    (Download.download_if_possible server can_open data_dir report).
Proof.
  intros w.
  destruct (locate_excel_file_total report data_dir) as [filename Hfile].
  destruct (Download.download_if_possible server can_open data_dir report w)
    as [r w'] eqn:Hrun. simpl.
  destruct (download_if_possible_outcome server can_open data_dir report
              filename w w' r Hfile Hrun) as (new & Htrace & Hnone & _).
  exists (Download.Attempt report :: new). simpl. rewrite Hnone.
  by repeat split.
Qed.

Lemma attempts_exactly_loops (this_year : Z) :
  attempts_exactly (reports_to_download this_year)
    (for_each (range 2012 (this_year + 1)) (fun y =>
       for_each all_months (fun m =>
         let report := {| year := y; month := m |} in
         bind (lift (has_no_data report)) (fun skip =>
           if skip then ret tt
           else
             bind (Download.download_if_possible server can_open data_dir report)
               (fun available =>
                  if available then
                    bind (lift (month_str m)) (fun name =>
                      Download.info ("Data from " +:+ name +:+ " " +:+ str_int y
                                     +:+ " available"))
                  else ret tt))))).
Proof.
  unfold reports_to_download.
  apply attempts_exactly_for_each. intros y.
  apply attempts_exactly_for_each. intros m. cbv zeta. unfold passed_on.
  destruct (has_no_data {| year := y; month := m |}) as [[]|e].
  - apply attempts_exactly_bind_Ok, attempts_exactly_nothing, emits_ret.
  - apply attempts_exactly_bind_Ok.
    apply (attempts_exactly_bind [_] []);
      [apply attempts_exactly_download_if_possible|].
    intros available. apply attempts_exactly_nothing.
    apply emits_if; [|apply emits_ret].
    apply emits_bind; [apply emits_lift|]. intros name.
    by apply emits_emit.
  - apply attempts_exactly_bind_Raise.
Qed.

Lemma download_new_after_year (w : Download.World) :
  Download.download_new server can_open now_year data_dir w
  = for_each (range 2012 (now_year + 1)) (fun y =>
      for_each all_months (fun m =>
        let report := {| year := y; month := m |} in
        bind (lift (has_no_data report)) (fun skip =>
          if skip then ret tt
          else
            bind (Download.download_if_possible server can_open data_dir report)
              (fun available =>
                 if available then
                   bind (lift (month_str m)) (fun name =>
                     Download.info ("Data from " +:+ name +:+ " " +:+ str_int y
                                    +:+ " available"))
                 else ret tt))))
      {| Download.files := Download.files w;
         Download.trace := Download.trace w ++
           [Download.Info ("The current year is " +:+ str_int now_year)] |}.
Proof. reflexivity. Qed.

Lemma attempts_exactly_download_new :
  attempts_exactly (reports_to_download now_year)
    (Download.download_new server can_open now_year data_dir).
Proof.
  intros w. rewrite download_new_after_year.
  match goal with
  | |- context [for_each _ _ ?w1] =>
      destruct (attempts_exactly_loops now_year w1) as (new & Htrace & Hrest)
  end.
  exists (Download.Info ("The current year is " +:+ str_int now_year) :: new).
  split; [rewrite Htrace; simpl; by rewrite <- app_assoc|]. exact Hrest.
Qed.

(** download_new passes the reports to download_if_possible in the order
    of its loops, year by year and month by month: what it has passed on
    is always a first part of that list, and the whole list when it
    returns normally. *)
Theorem download_new_attempts_in_order (w : Download.World) :
  exists new,
    Download.trace
      (Download.download_new server can_open now_year data_dir w).2
    = Download.trace w ++ new /\
    attempted new `prefix_of` reports_to_download now_year /\
    ((Download.download_new server can_open now_year data_dir w).1 = Ok tt ->
     attempted new = reports_to_download now_year).
Proof.
  destruct (attempts_exactly_download_new w) as (new & Htrace & Hprefix & Hall).
  exists new. split; [exact Htrace|]. split; [exact Hprefix|].
  intros Hok. apply Hall. by rewrite Hok.
Qed.
End Attempts.

Lemma elem_of_all_months (m : Month) :
  m ∈ all_months <-> 0 <= month_index m <= 11.
Proof.
  unfold all_months, range. rewrite list_elem_of_fmap. split.
  - intros (i & -> & Hi). apply elem_of_seqZ in Hi. simpl. lia.
  - intros Hm. exists (month_index m). split; [by destruct m|].
    apply elem_of_seqZ. lia.
Qed.

Lemma elem_of_passed_on (r report : MonthlyDataReport) :
  r ∈ passed_on report <-> r = report /\ has_no_data report = Ok false.
Proof.
  unfold passed_on.
  destruct (has_no_data report) as [[]|e]; rewrite ?list_elem_of_singleton;
    split; try (intros H; by apply not_elem_of_nil in H);
    try (by intros [_ ?]); [done|by intros [? _]].
Qed.

Lemma elem_of_reports_to_download (now_year : Z) (r : MonthlyDataReport) :
  r ∈ reports_to_download now_year <->
  2012 <= year r <= now_year /\
  0 <= month_index (month r) <= 11 /\
  ~ (year r = 2015 /\ month_index (month r) = 10).
Proof.
  unfold reports_to_download. rewrite list_elem_of_In, in_flat_map. split.
  - intros (y & Hy & Hr). apply in_flat_map in Hr as (m & Hm & Hr).
    apply list_elem_of_In in Hy, Hm, Hr.
    apply elem_of_seqZ in Hy. apply elem_of_all_months in Hm.
    apply elem_of_passed_on in Hr as [-> Hdata]. simpl.
    split; [lia|]. split; [done|]. intros [-> Hnov].
    destruct m as [i]. simpl in *. subst i. discriminate Hdata.
  - intros (Hy & Hm & Hnot). destruct r as [y [i]].
    cbn [year month month_index] in *.
    exists y. split; [apply list_elem_of_In, elem_of_seqZ; lia|].
    apply in_flat_map. exists {| month_index := i |}.
    split; [by apply list_elem_of_In, elem_of_all_months|].
    apply list_elem_of_In, elem_of_passed_on. split; [done|].
    rewrite has_no_data_valid by done. f_equal.
    destruct (Z.eqb_spec i 10), (Z.eqb_spec y 2015); simpl; try done.
    destruct Hnot. done.
Qed.

(** When download_new returns normally, the reports it has passed to
    download_if_possible are exactly those with a year from 2012 to the
    current year and a month from January to December, November 2015
    left out. *)
Theorem download_new_attempts_every_report
    (server : Download.World -> string -> Result Download.Response)
    (can_open : Download.World -> string -> bool)
    (now_year : Z) (data_dir : string) (w : Download.World) :
  (Download.download_new server can_open now_year data_dir w).1 = Ok tt ->
  exists new,
    Download.trace
      (Download.download_new server can_open now_year data_dir w).2
    = Download.trace w ++ new /\
    forall r,
      Download.Attempt r ∈ new <->
      (2012 <= year r <= now_year /\
       0 <= month_index (month r) <= 11 /\
       ~ (year r = 2015 /\ month_index (month r) = 10)).
Proof.
  intros Hok.
  destruct (attempts_exactly_download_new server can_open now_year data_dir w)
    as (new & Htrace & _ & Hall).
  exists new. split; [exact Htrace|]. intros r.
  rewrite <- elem_of_attempted, Hall by (by rewrite Hok).
  apply elem_of_reports_to_download.
Qed.

Lemma download_new_attempts_every_report_witness :
  exists new,
    Download.trace
      (Download.download_new always_404 open_succeeds 2012 "data" empty_disk).2
    = Download.trace empty_disk ++ new /\
    Download.Attempt {| year := 2012; month := {| month_index := 6 |} |} ∈ new.
Proof.
  destruct (download_new_attempts_every_report always_404 open_succeeds 2012
              "data" empty_disk) as (new & Htrace & Hin).
  - vm_compute. reflexivity.
  - exists new. split; [exact Htrace|]. apply Hin. simpl. lia.
Defined.

Lemma locate_possible_urls_valid (y i : Z) :
  0 <= i <= 11 ->
  exists urls,
    locate_possible_urls {| year := y; month := {| month_index := i |} |}
    = Ok urls.
Proof.
  intros Hi. each_month i Hi; lazy -[str_int String.append econtrds];
    by eexists.
Qed.

Lemma month_str_valid (i : Z) :
  0 <= i <= 11 -> exists name, month_str {| month_index := i |} = Ok name.
Proof. intros Hi. each_month i Hi; by eexists. Qed.

Section Quiet.
Lemma quiet_ret {A} (a : A) : quiet (@ret Download.World A a).
Proof. intros w. exists a, []. rewrite app_nil_r. by destruct w. Qed.

Lemma quiet_emit (e : Download.event) : quiet (Download.emit e).
Proof. intros w. by exists tt, [e]. Qed.

Lemma quiet_bind {A B} (m : M Download.World A) (k : A -> M Download.World B) :
  quiet m -> (forall a, quiet (k a)) -> quiet (bind m k).
Proof.
  intros Hm Hk w. unfold bind. destruct (Hm w) as (a & new1 & ->).
  destruct (Hk a {| Download.files := Download.files w;
                    Download.trace := Download.trace w ++ new1 |})
    as (b & new2 & ->).
  exists b, (new1 ++ new2). simpl. by rewrite app_assoc.
Qed.

Lemma quiet_bind_Ok {A B} (a : A) (k : A -> M Download.World B) :
  quiet (k a) -> quiet (bind (lift (Ok a)) k).
Proof. intros Hk w. exact (Hk w). Qed.

Lemma quiet_for_each {A} (xs : list A) (body : A -> M Download.World unit) :
  (forall x, x ∈ xs -> quiet (body x)) -> quiet (for_each xs body).
Proof.
  induction xs as [|x xs IH]; intros Hbody; simpl.
  - apply quiet_ret.
  - apply quiet_bind; [apply Hbody, list_elem_of_here|]. intros _.
    apply IH. intros x' Hx'. by apply Hbody, list_elem_of_further.
Qed.
End Quiet.

Section NothingPublished.
Variable server : Download.World -> string -> Result Download.Response.
Variable can_open : Download.World -> string -> bool.
Variable now_year : Z.
Variable data_dir : string.
Hypothesis nothing_published :
  forall w u, exists r, server w u = Ok r /\ Download.status_code r = 404.

Lemma quiet_download_if_possible (y i : Z) :
  0 <= i <= 11 ->
  quiet (Download.download_if_possible server can_open data_dir
           {| year := y; month := {| month_index := i |} |}).
Proof.
  intros Hi w.
  set (report := {| year := y; month := {| month_index := i |} |}).
  destruct (locate_excel_file_total report data_dir) as [filename Hfile].
  destruct (Download.files w !! filename) as [present|] eqn:Hdisk.
  - rewrite (download_if_possible_present_run server can_open data_dir
               report filename w Hfile) by done.
    by eexists _, _.
  - destruct (locate_possible_urls_valid y i Hi) as [urls Hurls].
    rewrite (download_if_possible_absent_run server can_open data_dir
               report filename urls w Hfile Hdisk Hurls).
    rewrite try_urls_all_unavailable.
    + eexists _, _. simpl. by rewrite <- app_assoc.
    + intros w' u _. destruct (nothing_published w' u) as (r & Hr & H404).
      exists r. split; [exact Hr|by left].
Qed.

(** When every request is answered with a 404, download_new returns
    normally, leaves the files as they are, and has passed on every
    report from January 2012 to December of the current year except
    November 2015, in that order. *)
Theorem download_new_nothing_published (w : Download.World) :
  exists new,
    Download.download_new server can_open now_year data_dir w
    = (Ok tt, {| Download.files := Download.files w;
                 Download.trace := Download.trace w ++ new |}) /\
    attempted new = reports_to_download now_year.
Proof.
  assert (Hquiet : quiet (Download.download_new server can_open now_year data_dir)).
  { unfold Download.download_new. apply quiet_bind.
    { unfold Download.current_year. apply quiet_bind; [apply quiet_emit|].
      intros _. apply quiet_ret. }
    intros this_year. apply quiet_for_each. intros y _.
    apply quiet_for_each. intros [i] Hm. apply elem_of_all_months in Hm.
    simpl in Hm. cbv zeta. rewrite has_no_data_valid by done.
    apply quiet_bind_Ok. destruct ((i =? 10) && (y =? 2015)).
    - apply quiet_ret.
    - apply quiet_bind; [by apply quiet_download_if_possible|].
      intros available. destruct available; [|apply quiet_ret].
      destruct (month_str_valid i Hm) as [name ->].
      apply quiet_bind_Ok, quiet_emit. }
  destruct (Hquiet w) as ([] & new & Hrun). exists new.
  split; [exact Hrun|].
  destruct (attempts_exactly_download_new server can_open now_year data_dir w)
    as (new' & Htrace & _ & Hall).
  rewrite Hrun in Htrace, Hall. simpl in Htrace, Hall.
  apply app_inv_head in Htrace. subst new'. by apply Hall.
Qed.
End NothingPublished.

Lemma download_new_nothing_published_witness :
  exists new,
    Download.download_new always_404 open_succeeds 2012 "data" empty_disk
    = (Ok tt, {| Download.files := ∅; Download.trace := [] ++ new |}) /\
    length (attempted new) = 12%nat.
Proof.
  destruct (download_new_nothing_published always_404 open_succeeds 2012 "data")
    with (w := empty_disk) as (new & Hrun & Hattempted).
  - intros w u. eexists. split; reflexivity.
  - exists new. split; [exact Hrun|]. rewrite Hattempted. reflexivity.
Defined.

(** ** __main__.py *)

Section MainFacts.
Variable server : Download.World -> string -> Result Download.Response.
Variable can_open : Download.World -> string -> bool.
Variable now_year : Z.
Variable load_workbook : bytes -> Result Merge.Workbook.
Variable listdir : Main.World -> string -> list string.

Abbreviation main := (Main.main server can_open now_year load_workbook listdir).
Abbreviation choose := (Main.choose server can_open now_year load_workbook listdir).


Lemma main_reaches_makedirs (answer : string) (rest : list string)
    (dirs : gset string) (d : Download.World) :
  String.length answer <> 1%nat ->
  main {| Main.stdin := answer :: rest; Main.directories := dirs;
          Main.disk := d |}
  = Main.andthen (Main.makedirs (chosen_directory answer)) (fun _ =>
    Main.andthen (fun w => choose (chosen_directory answer) (Main.stdin w) w)
      (fun _ => Main.on_disk (Download.info "Program finished")))
      {| Main.stdin := rest; Main.directories := dirs;
         Main.disk := logged d (Download.Info "Program started") |}.
Proof.
  intros Hlen. unfold Main.main, chosen_directory.
  unfold Main.andthen at 1. unfold Main.on_disk at 1. simpl.
  unfold Main.andthen at 1. unfold Main.input at 1. simpl.
  unfold Main.andthen at 1.
  destruct (String.eqb answer ""); [reflexivity|].
  destruct (Nat.eqb_spec (String.length answer) 1) as [?|_]; [done|].
  reflexivity.
Qed.


Lemma choose_skips_other_answers (data_dir : string)
    (others rest : list string) (dirs : gset string) (d : Download.World) :
  Forall other_answer others ->
  choose data_dir (others ++ rest)
    {| Main.stdin := others ++ rest; Main.directories := dirs; Main.disk := d |}
  = choose data_dir rest
      {| Main.stdin := rest; Main.directories := dirs; Main.disk := d |}.
Proof.
  induction 1 as [|option others [Hnot1 Hnot2] _ IH]; [done|].
  cbn [app Main.choose Main.directories Main.disk].
  rewrite (proj2 (String.eqb_neq option "1") Hnot1).
  rewrite (proj2 (String.eqb_neq option "2") Hnot2).
  exact IH.
Qed.

Lemma main_reaches_choose (answer : string) (rest : list string)
    (dirs : gset string) (d : Download.World) :
  String.length answer <> 1%nat ->
  chosen_directory answer ∉ dirs ->
  Download.files d !! chosen_directory answer = None ->
  main {| Main.stdin := answer :: rest; Main.directories := dirs;
          Main.disk := d |}
  = Main.andthen (choose (chosen_directory answer) rest)
      (fun _ => Main.on_disk (Download.info "Program finished"))
      {| Main.stdin := rest;
         Main.directories := dirs ∪ {[chosen_directory answer]};
         Main.disk := logged d (Download.Info "Program started") |}.
Proof.
  intros Hlen Hnew Hnofile. rewrite main_reaches_makedirs by done.
  unfold Main.andthen at 1, Main.makedirs. simpl.
  rewrite bool_decide_eq_false_2 by done. rewrite Hnofile.
  rewrite bool_decide_eq_false_2 by (by intros [? ?]). reflexivity.
Qed.

(** Once the directory is made, answers to the second question other
    than "1" and "2" change nothing: the question is asked again, and the
    run is the one without those answers. *)
Theorem main_asks_again (answer : string) (others rest : list string)
    (dirs : gset string) (d : Download.World) :
  String.length answer <> 1%nat ->
  chosen_directory answer ∉ dirs ->
  Download.files d !! chosen_directory answer = None ->
  Forall other_answer others ->
  main {| Main.stdin := answer :: others ++ rest; Main.directories := dirs;
          Main.disk := d |}
  = main {| Main.stdin := answer :: rest; Main.directories := dirs;
            Main.disk := d |}.
Proof.
  intros Hlen Hnew Hnofile Hothers.
  rewrite !main_reaches_choose by done.
  unfold Main.andthen. by rewrite choose_skips_other_answers.
Qed.

End MainFacts.



Lemma main_asks_again_witness :
  Main.main always_404 open_succeeds 2012 two_months_load empty_listing
    {| Main.stdin := "" :: ["3"; "yes"] ++ ["2"]; Main.directories := ∅;
       Main.disk := empty_disk |}
  = Main.main always_404 open_succeeds 2012 two_months_load empty_listing
      {| Main.stdin := "" :: ["2"]; Main.directories := ∅;
         Main.disk := empty_disk |}.
Proof.
  apply (main_asks_again always_404 open_succeeds 2012 two_months_load
           empty_listing "" ["3"; "yes"] ["2"] ∅ empty_disk).
  - simpl. lia.
  - apply not_elem_of_empty.
  - reflexivity.
  - repeat (apply Forall_cons; split; [split; discriminate|]).
    apply Forall_nil_2.
Defined.


(** A whole run: an empty first answer and the answer "2" on a machine
    without a directory "data" create that directory, condense its
    (empty) listing and finish. *)
Example main_condense_run :
  Main.main always_404 open_succeeds 2012 two_months_load empty_listing
    {| Main.stdin := [""; "2"]; Main.directories := ∅; Main.disk := empty_disk |}
  = (Main.Done tt,
     {| Main.stdin := []; Main.directories := ∅ ∪ {["data"]};
        Main.disk :=
          {| Download.files := ∅;
             Download.trace :=
               [Download.Info "Program started";
                Download.Info "Condensing existing datasets";
                Download.Info "Program finished"] |} |}).
Proof. reflexivity. Qed.
